(** * A shallow embedding of the pdf.js build script (gulpfile.mjs)

    The script sequences external tools (bundler, minifier, git) and
    choreographs files.  The embedding keeps that shape: JavaScript objects
    live in a store of property maps, the file system is a finite map from
    resolved paths to file contents, every effect is recorded in a trace, and
    the functions of the script are written in a state-and-exception monad.
    External tools are parameters of the development. *)

From Stdlib Require Import ZArith Ascii String Permutation.
From stdpp Require Import base tactics option list gmap strings pretty.

(** ** Text *)

(** Characters that cannot be written inside a string literal. *)
Definition dquote : string := String "034"%char "".
Definition newline : ascii := "010"%char.

(** [String.prototype.split] with a string separator: the text is cut at the
    leftmost occurrences of the separator, scanning left to right and
    resuming after each occurrence.  [skip] counts the characters of the
    current occurrence that are still to be passed over. *)
Fixpoint split_from (sep : string) (skip : nat) (t : string) : list string :=
  match t with
  | "" => [""]
  | String c t' =>
      match skip with
      | S k => split_from sep k t'
      | O =>
          if String.prefix sep t
          then "" :: split_from sep (String.length sep - 1) t'
          else match split_from sep 0 t' with
               | chunk :: rest => String c chunk :: rest
               | [] => [String c ""]
               end
      end
  end.

(** With the empty separator [split] yields the characters one by one. *)
Definition js_split (sep t : string) : list string :=
  match sep with
  | "" => (fun c => String c "") <$> list_ascii_of_string t
  | _ => split_from sep 0 t
  end.

(** [Array.prototype.join]. *)
Definition js_join (glue : string) (chunks : list string) : string :=
  String.concat glue chunks.

(** gulp-replace with a string pattern, on a buffer: split on the pattern
    and join with the replacement. *)
Definition gulp_replace (search replacement contents : string) : string :=
  js_join replacement (js_split search contents).

(** The same substitution as one left-to-right scan (used in the proofs). *)
Fixpoint subst_from (sep r : string) (skip : nat) (t : string) : string :=
  match t with
  | "" => ""
  | String c t' =>
      match skip with
      | S k => subst_from sep r k t'
      | O =>
          if String.prefix sep t
          then r +:+ subst_from sep r (String.length sep - 1) t'
          else String c (subst_from sep r 0 t')
      end
  end.

(** [occurs s t]: the string [s] occurs somewhere in [t]. *)
Fixpoint occurs (s t : string) : bool :=
  String.prefix s t ||
  match t with
  | "" => false
  | String _ t' => occurs s t'
  end.

(** ** The three post-processing passes *)

Definition webpackRequireName : string := "__webpack_require__".
Definition nonWebpackImportName : string := "__non_webpack_import__".

Definition rootAssignment (amdName : string) : string :=
  "root[" +:+ dquote +:+ amdName +:+ dquote +:+ "] = factory()".

Definition replaceWebpackRequire : string -> string :=
  gulp_replace webpackRequireName "__w_pdfjs_require__".

Definition replaceNonWebpackImport : string -> string :=
  gulp_replace nonWebpackImportName "import".

Definition replaceJSRootName (amdName jsName : string) : string -> string :=
  gulp_replace
    (rootAssignment amdName)
    ("root[" +:+ dquote +:+ amdName +:+ dquote +:+ "] = root." +:+ jsName +:+ " = factory()").

(** The three passes, in the order every bundle function pipes them. *)
Definition passes (amdName jsName : string) : list (string -> string) :=
  [replaceWebpackRequire; replaceNonWebpackImport; replaceJSRootName amdName jsName].

(** Piping a text through a sequence of passes. *)
Definition pipe_text (order : list (string -> string)) (t : string) : string :=
  fold_left (fun acc f => f acc) order t.

(** [has_char c s]: the character [c] occurs in [s]. *)
Fixpoint has_char (c : ascii) (s : string) : bool :=
  match s with
  | "" => false
  | String a s' => bool_decide (a = c) || has_char c s'
  end.

Definition unlines (lines : list string) : string :=
  String.concat (String newline "") lines.

(** A text free of the three search strings. *)
Definition clean (amdName u : string) : bool :=
  negb (occurs webpackRequireName u)
  && negb (occurs nonWebpackImportName u)
  && negb (occurs (rootAssignment amdName) u).

(** A line is tame when at most one of the three search strings occurs in
    it and its pass leaves none of the three behind. *)
Definition tame (amdName jsName l : string) : bool :=
  (negb (occurs nonWebpackImportName l) && negb (occurs (rootAssignment amdName) l)
     && clean amdName (replaceWebpackRequire l))
  || (negb (occurs webpackRequireName l) && negb (occurs (rootAssignment amdName) l)
     && clean amdName (replaceNonWebpackImport l))
  || (negb (occurs webpackRequireName l) && negb (occurs nonWebpackImportName l)
     && clean amdName (replaceJSRootName amdName jsName l)).

(** ** Paths *)

(** The file system resolves a path string by its segments: repeated
    separators and [.] segments do not matter.  A resolved path is the pair
    of an absolute-path flag and the list of segments.  ([..] segments and
    symbolic links do not occur in the script and are not interpreted.) *)
Definition segment_ok (s : string) : bool :=
  negb (bool_decide (s = "")) && negb (bool_decide (s = ".")).

Definition segments (p : string) : list string :=
  List.filter segment_ok (split_from "/" 0 p).

Definition resolve (p : string) : bool * list string :=
  (String.prefix "/" p, segments p).

Definition render (k : bool * list string) : string :=
  (if k.1 then "/" else "") +:+ String.concat "/" k.2.

(** [path.join] of Node.js on two arguments (without [..] segments or a
    trailing separator): the arguments are joined by a separator and the
    result is normalised. *)
Definition path_join (a b : string) : string :=
  render (resolve (a +:+ "/" +:+ b)).

(** [under d k]: the resolved path [k] lies in the directory [d]. *)
Definition under (d k : bool * list string) : bool :=
  bool_decide (d.1 = k.1) && bool_decide (d.2 `prefix_of` k.2).

(** ** JavaScript values and objects *)

#[warnings="-register-all"]
Inductive value : Type :=
  | VUndefined
  | VNull
  | VBool (b : bool)
  | VNum (n : Z)
  | VStr (s : string)
  | VObj (fields : list (string * value)).

(** [ToBoolean]. *)
Definition truthy (v : value) : bool :=
  match v with
  | VUndefined | VNull => false
  | VBool b => b
  | VNum n => negb (n =? 0)%Z
  | VStr s => negb (bool_decide (s = ""))
  | VObj _ => true
  end.

Definition nullish (v : value) : bool :=
  match v with
  | VUndefined | VNull => true
  | _ => false
  end.

(** Lookup in the field list of a data object (as produced by
    [JSON.parse] or written as a literal). *)
Fixpoint field (k : string) (fields : list (string * value)) : value :=
  match fields with
  | [] => VUndefined
  | (k', v) :: rest => if bool_decide (k' = k) then v else field k rest
  end.

(** An object of the store: its own properties, and whether
    [Object.freeze] was applied to it. *)
Record jsobj := JsObj {
  props : gmap string value;
  frozen : bool;
}.

(** An object literal: later fields win over earlier ones of the same name. *)
Definition literal (fields : list (string * value)) : gmap string value :=
  fold_left (fun m kv => <[kv.1 := kv.2]> m) fields ∅.

(** ** Effects *)

Inductive minify_input :=
  | MinCode (code : string)
  | MinFiles (named : list (string * string)).

Inductive event :=
  | EvRead (p : bool * list string)
  | EvWrite (p : bool * list string)
  | EvUnlink (p : bool * list string)
  | EvRename (src dst : bool * list string)
  | EvRimraf (d : bool * list string)
  | EvLog (line : string)
  | EvExec (cmd : string)
  | EvMinify (input : minify_input)
  | EvImport (p : string)
  | EvBundle (entry : string).

Definition is_read (e : event) : bool :=
  match e with
  | EvRead _ => true
  | _ => false
  end.

Definition is_unlink_of (k : bool * list string) (e : event) : bool :=
  match e with
  | EvUnlink p => bool_decide (p = k)
  | _ => false
  end.

(** Removals: what deletes a file or replaces it by another. *)
Definition is_removal (e : event) : bool :=
  match e with
  | EvUnlink _ | EvRename _ _ | EvRimraf _ => true
  | _ => false
  end.

Fixpoint count_events (f : event -> bool) (tr : list event) : nat :=
  match tr with
  | [] => 0
  | e :: rest => (if f e then 1 else 0) + count_events f rest
  end.

Inductive error :=
  | ENOENT (syscall path : string)
  | TypeError (msg : string)
  | SyntaxError (msg : string)
  | Error (msg : string)
  | ToolError (tool msg : string).

Record world := World {
  heap : gmap positive jsobj;
  files : gmap (bool * list string) string;
  env : gmap string string;
  trace : list event;
}.

Inductive outcome (A : Type) :=
  | Ok (a : A)
  | Throw (e : error).
Arguments Ok {A} a.
Arguments Throw {A} e.

(** Computations of the script: a world goes in, a result or a thrown
    error comes out together with the world as it then is. *)
Definition M (A : Type) : Type := world -> outcome A * world.

Definition ret {A} (a : A) : M A := fun w => (Ok a, w).

Definition bind {A B} (m : M A) (k : A -> M B) : M B :=
  fun w =>
    match m w with
    | (Ok a, w') => k a w'
    | (Throw e, w') => (Throw e, w')
    end.

Definition throw {A} (e : error) : M A := fun w => (Throw e, w).

Definition lift {A} (o : outcome A) : M A := fun w => (o, w).

Declare Scope script_scope.
Delimit Scope script_scope with script.
Notation "x <- c1 ;; c2" := (bind c1 (fun x => c2))
  (at level 100, c1 at next level, right associativity) : script_scope.
Notation "c1 ;; c2" := (bind c1 (fun _ => c2))
  (at level 100, right associativity) : script_scope.
Local Open Scope script_scope.

Definition emit (e : event) : M unit :=
  fun w => (Ok tt, World (heap w) (files w) (env w) (trace w ++ [e])).

Definition set_files (f : gmap (bool * list string) string) : M unit :=
  fun w => (Ok tt, World (heap w) f (env w) (trace w)).

Definition set_heap (h : gmap positive jsobj) : M unit :=
  fun w => (Ok tt, World h (files w) (env w) (trace w)).

Definition ask {A} (f : world -> A) : M A := fun w => (Ok (f w), w).

(** *** File system ([fs]) *)

Definition readFileSync (p : string) : M string :=
  fs <- ask files ;;
  match fs !! resolve p with
  | Some c => emit (EvRead (resolve p)) ;; ret c
  | None => throw (ENOENT "open" p)
  end.

Definition writeFileSync (p content : string) : M unit :=
  fs <- ask files ;;
  set_files (<[resolve p := content]> fs) ;;
  emit (EvWrite (resolve p)).

Definition unlinkSync (p : string) : M unit :=
  fs <- ask files ;;
  match fs !! resolve p with
  | Some _ => set_files (delete (resolve p) fs) ;; emit (EvUnlink (resolve p))
  | None => throw (ENOENT "unlink" p)
  end.

Definition renameSync (src dst : string) : M unit :=
  fs <- ask files ;;
  match fs !! resolve src with
  | Some c =>
      set_files (<[resolve dst := c]> (delete (resolve src) fs)) ;;
      emit (EvRename (resolve src) (resolve dst))
  | None => throw (ENOENT "rename" src)
  end.

(** [rimraf.sync]: the directory and everything below it is removed;
    nothing happens when it does not exist. *)
Definition rimraf_sync (d : string) : M unit :=
  fs <- ask files ;;
  set_files (filter (fun kv => under (resolve d) kv.1 = false) fs) ;;
  emit (EvRimraf (resolve d)).

Definition console_log (line : string) : M unit := emit (EvLog line).

(** *** Objects *)

Definition new_object (fields : list (string * value)) : M positive :=
  h <- ask heap ;;
  let l := fresh (dom h) in
  set_heap (<[l := JsObj (literal fields) false]> h) ;;
  ret l.

(** [o.k] for an object reference [o]; an absent property reads as
    [undefined]. *)
Definition get_prop (o : positive) (k : string) : M value :=
  h <- ask heap ;;
  match h !! o with
  | Some ob => ret (default VUndefined (props ob !! k))
  | None => throw (TypeError "not an object")
  end.

(** [o.k = v] in strict mode (the script is an ES module). *)
Definition set_prop (o : positive) (k : string) (v : value) : M unit :=
  h <- ask heap ;;
  match h !! o with
  | Some ob =>
      if frozen ob
      then throw (TypeError "cannot assign to a property of a frozen object")
      else set_heap (<[o := JsObj (<[k := v]> (props ob)) false]> h)
  | None => throw (TypeError "not an object")
  end.

(** [v.k] for a value: [undefined] and [null] have no properties;
    primitives have none of the properties read by the script. *)
Definition member (v : value) (k : string) : M value :=
  match v with
  | VUndefined | VNull => throw (TypeError "cannot read properties of undefined or null")
  | VObj fields => ret (field k fields)
  | _ => ret VUndefined
  end.

(** [v?.k]. *)
Definition opt_member (v : value) (k : string) : M value :=
  if nullish v then ret VUndefined else member v k.

(** Modelled from the spec: [builder.merge] of external/builder/builder.mjs,
    which is not part of the sources at hand.  Section 4.1 of the
    specification: the overrides take precedence per key, keys absent from
    the overrides retain the base value, unknown keys are admitted, the
    result is a new flag set, the inputs are never mutated, and the merge is
    total. *)
Definition builder_merge (defaults overrides : positive) : M positive :=
  h <- ask heap ;;
  match h !! defaults, h !! overrides with
  | Some b, Some o =>
      let l := fresh (dom h) in
      set_heap (<[l := JsObj (props o ∪ props b) false]> h) ;;
      ret l
  | _, _ => throw (TypeError "not an object")
  end.

(** ** The bundler configuration *)

(** The third argument of [createWebpackConfig]. *)
Record options := Options {
  disableVersionInfo : bool;
  disableSourceMaps : bool;
  disableLicenseHeader : bool;
  defaultPreferencesDir : option string;
}.

(** The defaults of the destructuring pattern. *)
Definition no_options : options := Options false false false None.

(** The object returned by [createWebpackConfig].  [output] and
    [loader_defines] are references into the store: the caller's output
    descriptor and the merged flag set handed to the pdfjsdev loader. *)
Record webpackConfig := WebpackConfig {
  mode : string;
  experiments_outputModule : bool;
  output : positive;
  plugins : list string;
  resolve_alias : gmap string string;
  devtool : option string;
  babel_exclude : string;
  babel_presets : bool;
  loader_defines : positive;
}.

(** What [exec] hands to its callback. *)
Record exec_result := ExecResult {
  exec_err : option string;
  exec_stdout : string;
}.

(** The [pdfjs.config] file, parsed when the script is loaded. *)
Record config_file := ConfigFile {
  baseVersion : string;
  versionPrefix : string;
}.

(** The collaborators outside this script: the directory of the script,
    the JSON codec of the runtime, the bundler, the minifier, the shell, and
    the module loader applied to the generated [app_options.mjs] (yielding
    [AppOptions.getAll(OptionKind.PREFERENCE)]). *)
Class Platform := {
  dirname : string;
  config : config_file;
  JSON_parse : string -> outcome value;
  JSON_stringify : value -> nat -> string;
  webpack :
    webpackConfig -> gmap positive jsobj -> gmap (bool * list string) string ->
    string -> outcome string;
  minify : minify_input -> outcome string;
  exec : string -> exec_result;
  import_preferences :
    string -> gmap (bool * list string) string -> outcome (list (string * value));
}.

Definition BUILD_DIR : string := "build/".
Definition DEFAULT_PREFERENCES_DIR : string := BUILD_DIR +:+ "default_preferences/".
Definition MINIFIED_DIR : string := BUILD_DIR +:+ "minified/".
Definition MINIFIED_LEGACY_DIR : string := BUILD_DIR +:+ "minified-legacy/".
Definition TMP_DIR : string := BUILD_DIR +:+ "tmp/".

(** [DEFINES]: the base flag set, frozen. *)
Definition DEFINES_fields : list (string * value) :=
  [ ("SKIP_BABEL", VBool true);
    ("TESTING", VUndefined);
    ("GENERIC", VBool false);
    ("MOZCENTRAL", VBool false);
    ("GECKOVIEW", VBool false);
    ("CHROME", VBool false);
    ("MINIFIED", VBool false);
    ("COMPONENTS", VBool false);
    ("LIB", VBool false);
    ("IMAGE_DECODERS", VBool false) ].

Definition DEFINES_object : jsobj := JsObj (literal DEFINES_fields) true.

(** Reading a flag of a flag set: [d.NAME]. *)
Definition flag (d : gmap string value) (name : string) : value :=
  default VUndefined (d !! name).

Definition basicAlias : gmap string string :=
  list_to_map
    [ ("pdfjs", "src");
      ("pdfjs-web", "web");
      ("pdfjs-lib", "web/pdfjs") ].

Definition libraryAlias0 : gmap string string :=
  list_to_map
    [ ("display-fetch_stream", "src/display/stubs.js");
      ("display-l10n_utils", "src/display/stubs.js");
      ("display-network", "src/display/stubs.js");
      ("display-node_stream", "src/display/stubs.js");
      ("display-node_utils", "src/display/stubs.js");
      ("display-svg", "src/display/stubs.js") ].

Definition viewerAlias0 : gmap string string :=
  list_to_map
    [ ("web-annotation_editor_params", "web/annotation_editor_params.js");
      ("web-com", "");
      ("web-pdf_attachment_viewer", "web/pdf_attachment_viewer.js");
      ("web-pdf_cursor_tools", "web/pdf_cursor_tools.js");
      ("web-pdf_document_properties", "web/pdf_document_properties.js");
      ("web-pdf_find_bar", "web/pdf_find_bar.js");
      ("web-pdf_layer_viewer", "web/pdf_layer_viewer.js");
      ("web-pdf_outline_viewer", "web/pdf_outline_viewer.js");
      ("web-pdf_presentation_mode", "web/pdf_presentation_mode.js");
      ("web-pdf_sidebar", "web/pdf_sidebar.js");
      ("web-pdf_thumbnail_viewer", "web/pdf_thumbnail_viewer.js");
      ("web-print_service", "");
      ("web-secondary_toolbar", "web/secondary_toolbar.js");
      ("web-toolbar", "web/toolbar.js") ].

Definition gvAlias : gmap string string :=
  list_to_map [ ("web-toolbar", "web/toolbar-geckoview.js") ].

(** [gvAlias[key] || "web/stubs-geckoview.js"]. *)
Definition geckoview_choice (key : string) : string :=
  match gvAlias !! key with
  | Some p => if bool_decide (p = "") then "web/stubs-geckoview.js" else p
  | None => "web/stubs-geckoview.js"
  end.

(** The library slots after the target branches. *)
Definition libraryAlias (d : gmap string value) : gmap string string :=
  if truthy (flag d "CHROME") then
    <["display-network" := "src/display/network.js"]>
      (<["display-fetch_stream" := "src/display/fetch_stream.js"]> libraryAlias0)
  else if truthy (flag d "GENERIC") then
    <["display-svg" := "src/display/svg.js"]>
      (<["display-node_utils" := "src/display/node_utils.js"]>
         (<["display-node_stream" := "src/display/node_stream.js"]>
            (<["display-network" := "src/display/network.js"]>
               (<["display-l10n_utils" := "web/l10n_utils.js"]>
                  (<["display-fetch_stream" := "src/display/fetch_stream.js"]>
                     libraryAlias0)))))
  else libraryAlias0.

(** The viewer slots after the target branches. *)
Definition viewerAlias (d : gmap string value) : gmap string string :=
  if truthy (flag d "CHROME") then
    <["web-print_service" := "web/pdf_print_service.js"]>
      (<["web-com" := "web/chromecom.js"]> viewerAlias0)
  else if truthy (flag d "GENERIC") then
    <["web-print_service" := "web/pdf_print_service.js"]>
      (<["web-com" := "web/genericcom.js"]> viewerAlias0)
  else if truthy (flag d "MOZCENTRAL") then
    <["web-print_service" := "web/firefox_print_service.js"]>
      (<["web-com" := "web/firefoxcom.js"]>
         (if truthy (flag d "GECKOVIEW")
          then map_imap (fun key _ => Some (geckoview_choice key)) viewerAlias0
          else viewerAlias0))
  else viewerAlias0.

(** [{ ...basicAlias, ...libraryAlias, ...viewerAlias }], before the paths
    are joined to the directory of the script. *)
Definition aliasTable (d : gmap string value) : gmap string string :=
  viewerAlias d ∪ libraryAlias d ∪ basicAlias.

(** The slot names of the three tables. *)
Definition slot_names : gset string :=
  dom basicAlias ∪ dom libraryAlias0 ∪ dom viewerAlias0.

(** The implementations written for a browser extension. *)
Definition extension_specific (p : string) : bool :=
  bool_decide
    (p ∈ [ "web/chromecom.js"; "web/firefoxcom.js";
           "web/firefox_print_service.js"; "web/toolbar-geckoview.js";
           "web/stubs-geckoview.js" ]).

(** The inert implementations. *)
Definition is_stub (p : string) : bool :=
  bool_decide (p = "src/display/stubs.js")
  || bool_decide (p = "web/stubs-geckoview.js").

(** ** Streams *)

(** A virtual file in flight. *)
Record vinyl := Vinyl {
  vpath : string;
  relative : string;
  contents : string;
}.

Inductive stage :=
  | SWebpack (cfg : webpackConfig)
  | STransform (f : string -> string)
  | SDest (dir : string).

Inductive source :=
  | Src (p : string)
  | StringSource (filename content : string).

(** A stream is built when a bundle function is called and does its work
    when the task runner drains it. *)
Record stream := Stream {
  origin : source;
  stages : list stage;
}.

Definition gulp_src (p : string) : stream := Stream (Src p) [].
Definition createStringSource (filename content : string) : stream :=
  Stream (StringSource filename content) [].
Definition pipe (s : stream) (st : stage) : stream :=
  Stream (origin s) (stages s ++ [st]).
Definition gulp_dest (dir : string) : stage := SDest dir.
Definition webpack2Stream (cfg : webpackConfig) : stage := SWebpack cfg.

Section Script.
Context `{Platform}.
Local Open Scope script_scope.

Definition getVersionJSON : M value :=
  s <- readFileSync (BUILD_DIR +:+ "version.json") ;;
  lift (JSON_parse s).

Definition getDefaultPreferences (dir : string) : M value :=
  s <- readFileSync (DEFAULT_PREFERENCES_DIR +:+ dir +:+ "default_preferences.json") ;;
  lift (JSON_parse s).

(** [defines.TESTING ?? process.env.TESTING === "true"]. *)
Definition testingDefine (defines : positive) : M value :=
  t <- get_prop defines "TESTING" ;;
  if nullish t
  then e <- ask env ;; ret (VBool (bool_decide (e !! "TESTING" = Some "true")))
  else ret t.

Definition read_object (o : positive) : M (gmap string value) :=
  h <- ask heap ;;
  match h !! o with
  | Some ob => ret (props ob)
  | None => throw (TypeError "not an object")
  end.

Definition createWebpackConfig
    (defines output : positive) (opts : options) : M webpackConfig :=
  versionInfo <-
    (if negb (disableVersionInfo opts)
     then getVersionJSON
     else ret (VObj [("version", VNum 0); ("commit", VNum 0)])) ;;
  bundle_version <- member versionInfo "version" ;;
  bundle_build <- member versionInfo "commit" ;;
  testing <- testingDefine defines ;;
  preferences <-
    (match defaultPreferencesDir opts with
     | Some dir =>
         if bool_decide (dir = "") then ret (VObj [])
         else getDefaultPreferences dir
     | None => ret (VObj [])
     end) ;;
  overrides <-
    new_object
      [ ("BUNDLE_VERSION", bundle_version);
        ("BUNDLE_BUILD", bundle_build);
        ("TESTING", testing);
        ("DEFAULT_PREFERENCES", preferences) ] ;;
  bundleDefines <- builder_merge defines overrides ;;
  licenseHeaderLibre <- readFileSync "./src/license_header_libre.js" ;;
  d <- read_object bundleDefines ;;
  let enableSourceMaps :=
    negb (truthy (flag d "MOZCENTRAL"))
    && negb (truthy (flag d "CHROME"))
    && negb (truthy (flag d "LIB"))
    && negb (truthy (flag d "TESTING"))
    && negb (disableSourceMaps opts) in
  let skipBabel := truthy (flag d "SKIP_BABEL") in
  let babelExcludes :=
    "node_modules[\\\/]core-js"
    :: (if enableSourceMaps then ["src[\\\/]core[\\\/](glyphlist|unicode)"] else []) in
  let babelExcludeRegExp := "(" +:+ js_join "|" babelExcludes +:+ ")" in
  let plugins :=
    if negb (disableLicenseHeader opts) then [licenseHeaderLibre] else [] in
  library <- get_prop output "library" ;;
  library_type <- opt_member library "type" ;;
  let experiments :=
    match library_type with
    | VStr s => bool_decide (s = "module")
    | _ => false
    end in
  set_prop output "globalObject" (VStr "globalThis") ;;
  let alias := path_join dirname <$> aliasTable d in
  ret {| mode := "none";
         experiments_outputModule := experiments;
         output := output;
         plugins := plugins;
         resolve_alias := alias;
         devtool := if enableSourceMaps then Some "source-map" else None;
         babel_exclude := babelExcludeRegExp;
         babel_presets := negb skipBabel;
         loader_defines := bundleDefines |}.

(** ** Running streams *)

Definition basename (p : string) : string := default "" (last (segments p)).

Definition run_source (s : source) : M vinyl :=
  match s with
  | Src p => c <- readFileSync p ;; ret (Vinyl p (basename p) c)
  | StringSource f c => ret (Vinyl f f c)
  end.

Definition run_stage (st : stage) (f : vinyl) : M vinyl :=
  match st with
  | SWebpack cfg =>
      h <- ask heap ;;
      fs <- ask files ;;
      name <- get_prop (output cfg) "filename" ;;
      text <- lift (webpack cfg h fs (vpath f)) ;;
      emit (EvBundle (vpath f)) ;;
      match name with
      | VStr n => ret (Vinyl n n text)
      | _ => throw (ToolError "webpack" "output.filename")
      end
  | STransform g => ret (Vinyl (vpath f) (relative f) (g (contents f)))
  | SDest dir =>
      writeFileSync (dir +:+ "/" +:+ relative f) (contents f) ;;
      ret f
  end.

Fixpoint run_stages (sts : list stage) (f : vinyl) : M vinyl :=
  match sts with
  | [] => ret f
  | st :: rest => f' <- run_stage st f ;; run_stages rest f'
  end.

(** Draining a stream to its end. *)
Definition run (s : stream) : M vinyl :=
  f <- run_source (origin s) ;;
  run_stages (stages s) f.

(** ** Bundles *)

Definition umd_output (filename library : string) : list (string * value) :=
  [ ("filename", VStr filename);
    ("library", VStr library);
    ("libraryTarget", VStr "umd");
    ("umdNamedDefine", VBool true) ].

Definition createMainBundle (defines : positive) : M stream :=
  let mainAMDName := "pdfjs-dist/build/pdf" in
  let mainOutputName := "pdf.js" in
  out <- new_object (umd_output mainOutputName mainAMDName) ;;
  mainFileConfig <- createWebpackConfig defines out no_options ;;
  ret (pipe (pipe (pipe (pipe (gulp_src "./src/pdf.js")
         (webpack2Stream mainFileConfig))
         (STransform replaceWebpackRequire))
         (STransform replaceNonWebpackImport))
         (STransform (replaceJSRootName mainAMDName "pdfjsLib"))).

Definition createScriptingBundle
    (defines : positive) (extraOptions : option options) : M stream :=
  let scriptingAMDName := "pdfjs-dist/build/pdf.scripting" in
  let scriptingOutputName := "pdf.scripting.js" in
  out <- new_object (umd_output scriptingOutputName scriptingAMDName) ;;
  scriptingFileConfig <-
    createWebpackConfig defines out (default no_options extraOptions) ;;
  ret (pipe (pipe (pipe (pipe (gulp_src "./src/pdf.scripting.js")
         (webpack2Stream scriptingFileConfig))
         (STransform replaceWebpackRequire))
         (STransform replaceNonWebpackImport))
         (STransform
            (gulp_replace (rootAssignment scriptingAMDName)
               "root.pdfjsScripting = factory()"))).

Definition createTemporaryScriptingBundle
    (defines : positive) (extraOptions : option options) : M stream :=
  s <- createScriptingBundle defines
         (Some {| disableVersionInfo :=
                    match extraOptions with
                    | Some o => disableVersionInfo o
                    | None => false
                    end;
                  disableSourceMaps := true;
                  disableLicenseHeader := true;
                  defaultPreferencesDir := None |}) ;;
  ret (pipe s (gulp_dest TMP_DIR)).

Definition scriptingPath : string := TMP_DIR +:+ "pdf.scripting.js".

Definition createSandboxBundle
    (defines : positive) (extraOptions : option options) : M stream :=
  source_text <- readFileSync scriptingPath ;;
  overrides <- new_object [("PDF_SCRIPTING_JS_SOURCE", VStr source_text)] ;;
  sandboxDefines <- builder_merge defines overrides ;;
  unlinkSync scriptingPath ;;
  let sandboxAMDName := "pdfjs-dist/build/pdf.sandbox" in
  let sandboxOutputName := "pdf.sandbox.js" in
  out <- new_object (umd_output sandboxOutputName sandboxAMDName) ;;
  sandboxFileConfig <-
    createWebpackConfig sandboxDefines out (default no_options extraOptions) ;;
  ret (pipe (pipe (pipe (pipe (gulp_src "./src/pdf.sandbox.js")
         (webpack2Stream sandboxFileConfig))
         (STransform replaceWebpackRequire))
         (STransform replaceNonWebpackImport))
         (STransform (replaceJSRootName sandboxAMDName "pdfjsSandbox"))).

(** The part of [createSandboxBundle] after [fs.unlinkSync]: the assembly
    of the sandbox configuration and of the stream. *)
Definition assembleSandbox
    (sandboxDefines : positive) (extraOptions : option options) : M stream :=
  let sandboxAMDName := "pdfjs-dist/build/pdf.sandbox" in
  let sandboxOutputName := "pdf.sandbox.js" in
  out <- new_object (umd_output sandboxOutputName sandboxAMDName) ;;
  sandboxFileConfig <-
    createWebpackConfig sandboxDefines out (default no_options extraOptions) ;;
  ret (pipe (pipe (pipe (pipe (gulp_src "./src/pdf.sandbox.js")
         (webpack2Stream sandboxFileConfig))
         (STransform replaceWebpackRequire))
         (STransform replaceNonWebpackImport))
         (STransform (replaceJSRootName sandboxAMDName "pdfjsSandbox"))).

(** The two functions of the [dev-sandbox] task, run in series;
    [DEFINES] is the reference of the frozen base flag set. *)
Definition scriptingDevSandbox (DEFINES : positive) : M vinyl :=
  overrides <- new_object [("GENERIC", VBool true); ("TESTING", VBool true)] ;;
  defines <- builder_merge DEFINES overrides ;;
  s <- createTemporaryScriptingBundle defines
         (Some (Options true false false None)) ;;
  run s.

Definition createDevSandbox (DEFINES : positive) : M vinyl :=
  console_log "" ;;
  console_log "### Building development sandbox" ;;
  overrides <- new_object [("GENERIC", VBool true); ("TESTING", VBool true)] ;;
  defines <- builder_merge DEFINES overrides ;;
  let sandboxDir := BUILD_DIR +:+ "dev-sandbox/" in
  rimraf_sync sandboxDir ;;
  s <- createSandboxBundle defines (Some (Options true false false None)) ;;
  run (pipe s (gulp_dest sandboxDir)).

Definition dev_sandbox (DEFINES : positive) : M vinyl :=
  scriptingDevSandbox DEFINES ;;
  createDevSandbox DEFINES.

(** ** Versioning *)

Fixpoint count_char (c : ascii) (s : string) : nat :=
  match s with
  | "" => 0
  | String a s' => (if bool_decide (a = c) then 1 else 0) + count_char c s'
  end.

Fixpoint string_drop (n : nat) (s : string) : string :=
  match n, s with
  | O, _ => s
  | S k, String _ s' => string_drop k s'
  | S _, "" => ""
  end.

(** [String.prototype.replace] with a string pattern: the first occurrence
    only. *)
Fixpoint replace_first (search replacement t : string) : string :=
  if String.prefix search t
  then replacement +:+ string_drop (String.length search) t
  else match t with
       | "" => ""
       | String c t' => String c (replace_first search replacement t')
       end.

(** [createBuildNumber(done)]; the callbacks of [exec] and the end of the
    stream are run in the order in which they fire. *)
Definition createBuildNumber (done : M unit) : M unit :=
  console_log "" ;;
  console_log "### Getting extension build number" ;;
  let cmd := "git log --format=oneline " +:+ baseVersion config +:+ ".." in
  emit (EvExec cmd) ;;
  let r := exec cmd in
  buildNumber <-
    (match exec_err r with
     | None =>
         if bool_decide (exec_stdout r = "") then ret 0
         else match count_char newline (exec_stdout r) with
              | O => throw (TypeError "cannot read properties of null")
              | n => ret n
              end
     | Some _ =>
         console_log "This is not a Git repository; using default build number." ;;
         ret 0
     end) ;;
  console_log ("Extension build number: " +:+ pretty buildNumber) ;;
  let version := versionPrefix config +:+ pretty buildNumber in
  let cmd2 := "git log --format=" +:+ dquote +:+ "%h" +:+ dquote +:+ " -n 1" in
  emit (EvExec cmd2) ;;
  let r2 := exec cmd2 in
  let buildCommit :=
    match exec_err r2 with
    | None => replace_first (String newline "") "" (exec_stdout r2)
    | Some _ => ""
    end in
  run (pipe
         (createStringSource "version.json"
            (JSON_stringify
               (VObj [ ("version", VStr version);
                       ("build", VNum (Z.of_nat buildNumber));
                       ("commit", VStr buildCommit) ])
               2))
         (gulp_dest BUILD_DIR)) ;;
  done.

(** The two queries, and the text of [version.json] for a descriptor. *)
Definition count_command : string :=
  "git log --format=oneline " +:+ baseVersion config +:+ "..".
Definition hash_command : string :=
  "git log --format=" +:+ dquote +:+ "%h" +:+ dquote +:+ " -n 1".
Definition version_descriptor (version : string) (build : nat) (commit : string) : string :=
  JSON_stringify
    (VObj [ ("version", VStr version);
            ("build", VNum (Z.of_nat build));
            ("commit", VStr commit) ])
    2.

(** ** Default preferences *)


Definition parseDefaultPreferences (dir : string) : M unit :=
  console_log "" ;;
  console_log "### Parsing default preferences" ;;
  let module := "./" +:+ DEFAULT_PREFERENCES_DIR +:+ dir +:+ "app_options.mjs" in
  fs <- ask files ;;
  emit (EvImport module) ;;
  prefs <- lift (import_preferences module fs) ;;
  if bool_decide (length prefs = 0)
  then throw (Error "No default preferences found.")
  else
    writeFileSync
      (DEFAULT_PREFERENCES_DIR +:+ dir +:+ "default_preferences.json")
      (JSON_stringify (VObj prefs) 0).

(** ** Minification *)

(** [(await minify(input, options)).code]. *)
Definition minified (input : minify_input) : M string :=
  emit (EvMinify input) ;;
  lift (minify input).

Definition parseMinified (dir : string) : M unit :=
  pdfFile <- readFileSync (dir +:+ "/build/pdf.js") ;;
  pdfWorkerFile <- readFileSync (dir +:+ "/build/pdf.worker.js") ;;
  pdfSandboxFile <- readFileSync (dir +:+ "/build/pdf.sandbox.js") ;;
  pdfImageDecodersFile <-
    readFileSync (dir +:+ "/image_decoders/pdf.image_decoders.js") ;;
  viewerFile <- readFileSync (dir +:+ "/web/viewer.js") ;;
  let viewerFiles := [("pdf.js", pdfFile); ("viewer.js", viewerFile)] in
  console_log "" ;;
  console_log "### Minifying js files" ;;
  code <- minified (MinFiles viewerFiles) ;;
  writeFileSync (dir +:+ "/web/pdf.viewer.js") code ;;
  code <- minified (MinCode pdfFile) ;;
  writeFileSync (dir +:+ "/build/pdf.min.js") code ;;
  code <- minified (MinCode pdfWorkerFile) ;;
  writeFileSync (dir +:+ "/build/pdf.worker.min.js") code ;;
  code <- minified (MinCode pdfSandboxFile) ;;
  writeFileSync (dir +:+ "/build/pdf.sandbox.min.js") code ;;
  code <- minified (MinCode pdfImageDecodersFile) ;;
  writeFileSync (dir +:+ "image_decoders/pdf.image_decoders.min.js") code ;;
  console_log "" ;;
  console_log "### Cleaning js files" ;;
  unlinkSync (dir +:+ "/web/viewer.js") ;;
  unlinkSync (dir +:+ "/web/debugger.js") ;;
  unlinkSync (dir +:+ "/build/pdf.js") ;;
  unlinkSync (dir +:+ "/build/pdf.worker.js") ;;
  unlinkSync (dir +:+ "/build/pdf.sandbox.js") ;;
  renameSync (dir +:+ "/build/pdf.min.js") (dir +:+ "/build/pdf.js") ;;
  renameSync (dir +:+ "/build/pdf.worker.min.js") (dir +:+ "/build/pdf.worker.js") ;;
  renameSync (dir +:+ "/build/pdf.sandbox.min.js") (dir +:+ "/build/pdf.sandbox.js") ;;
  renameSync
    (dir +:+ "/image_decoders/pdf.image_decoders.min.js")
    (dir +:+ "/image_decoders/pdf.image_decoders.js").

(** The second half of [parseMinified], from the "Cleaning" banner on. *)
Definition cleanPhase (dir : string) : M unit :=
  console_log "" ;;
  console_log "### Cleaning js files" ;;
  unlinkSync (dir +:+ "/web/viewer.js") ;;
  unlinkSync (dir +:+ "/web/debugger.js") ;;
  unlinkSync (dir +:+ "/build/pdf.js") ;;
  unlinkSync (dir +:+ "/build/pdf.worker.js") ;;
  unlinkSync (dir +:+ "/build/pdf.sandbox.js") ;;
  renameSync (dir +:+ "/build/pdf.min.js") (dir +:+ "/build/pdf.js") ;;
  renameSync (dir +:+ "/build/pdf.worker.min.js") (dir +:+ "/build/pdf.worker.js") ;;
  renameSync (dir +:+ "/build/pdf.sandbox.min.js") (dir +:+ "/build/pdf.sandbox.js") ;;
  renameSync
    (dir +:+ "/image_decoders/pdf.image_decoders.min.js")
    (dir +:+ "/image_decoders/pdf.image_decoders.js").

(** The files [parseMinified] deletes or renames over, and the files it
    writes the minified texts to. *)
Definition originals (dir : string) : list string :=
  [ dir +:+ "/web/viewer.js";
    dir +:+ "/web/debugger.js";
    dir +:+ "/build/pdf.js";
    dir +:+ "/build/pdf.worker.js";
    dir +:+ "/build/pdf.sandbox.js";
    dir +:+ "/image_decoders/pdf.image_decoders.js" ].

Definition minified_outputs (dir : string) : list string :=
  [ dir +:+ "/web/pdf.viewer.js";
    dir +:+ "/build/pdf.min.js";
    dir +:+ "/build/pdf.worker.min.js";
    dir +:+ "/build/pdf.sandbox.min.js";
    dir +:+ "image_decoders/pdf.image_decoders.min.js" ].

End Script.

(** ** A concrete platform and concrete worlds, for the examples *)

(** A rendering of data values, standing in for [JSON.stringify] in the
    examples (strings are not escaped, indentation is ignored). *)
Fixpoint show_value (v : value) : string :=
  match v with
  | VUndefined => "undefined"
  | VNull => "null"
  | VBool true => "true"
  | VBool false => "false"
  | VNum n => pretty n
  | VStr s => dquote +:+ s +:+ dquote
  | VObj fields =>
      "{" +:+
      String.concat ","
        ((fix go (l : list (string * value)) : list string :=
            match l with
            | [] => []
            | (k, x) :: rest => (dquote +:+ k +:+ dquote +:+ ":" +:+ show_value x) :: go rest
            end) fields)
      +:+ "}"
  end.

(** The example platform: the script lives in [/repo]; the bundler answers
    with a one-line bundle naming its entry; the minifier returns its input
    unchanged (the codes of a group, concatenated); [git] answers as told;
    the generated options module exports the given preferences. *)
Definition example_platform
    (count hash : exec_result) (prefs : list (string * value)) : Platform :=
  {| dirname := "/repo";
     config := ConfigFile "v4.0.0" "4.0.";
     JSON_parse := fun s =>
       if bool_decide (s = "") then Throw (SyntaxError "Unexpected end of JSON input")
       else Ok (VObj [("version", VStr "4.0.7"); ("commit", VStr "abc1234")]);
     JSON_stringify := fun v _ => show_value v;
     webpack := fun _ _ _ entry => Ok ("/* bundle of " +:+ entry +:+ " */");
     minify := fun input =>
       match input with
       | MinCode code => Ok code
       | MinFiles named => Ok (String.concat "" (snd <$> named))
       end;
     exec := fun cmd =>
       if String.prefix "git log --format=oneline" cmd then count else hash;
     import_preferences := fun _ _ => Ok prefs |}.

Definition git_ok (stdout : string) : exec_result := ExecResult None stdout.
Definition git_failed : exec_result := ExecResult (Some "not a git repository") "".

(** The store right after the script was loaded: [DEFINES] at reference 1. *)
Definition loaded_heap : gmap positive jsobj := {[ 1%positive := DEFINES_object ]}.

Definition world_of
    (h : gmap positive jsobj) (fs : list (string * string)) : world :=
  World h (list_to_map ((fun kv => (resolve kv.1, kv.2)) <$> fs)) ∅ [].

Definition quiet_platform : Platform :=
  example_platform (git_ok "") (git_ok "") [].

(** A world in which a bundle can be configured: [DEFINES] at reference 1,
    an output descriptor at reference 2, the licence header on disk. *)
Definition configurable_world : world :=
  world_of
    (<[2%positive := JsObj (literal (umd_output "pdf.js" "pdfjs-dist/build/pdf")) false]>
       loaded_heap)
    [("src/license_header_libre.js", "/* license */")].

(** The output of the commit-count query for two commits. *)
Definition two_commits : string :=
  "1a2b3c4 first" +:+ String newline ("5d6e7f8 second" +:+ String newline "").

Definition hashless_platform : Platform :=
  example_platform (git_ok two_commits) git_failed [].

Definition gitless_platform : Platform :=
  example_platform git_failed git_failed [].

Definition empty_world : world := world_of loaded_heap [].

(** A world in which the scripting bundle can be built. *)
Definition sandbox_world : world :=
  world_of loaded_heap
    [ ("src/license_header_libre.js", "/* license */");
      ("src/pdf.scripting.js", "export {};");
      ("src/pdf.sandbox.js", "export {};") ].

Definition dev_options : option options := Some (Options true false false None).

(** An assembled minified tree, before its minification pass. *)
Definition minified_world : world :=
  world_of loaded_heap
    [ ("build/minified/build/pdf.js", "pdf");
      ("build/minified/build/pdf.worker.js", "worker");
      ("build/minified/build/pdf.sandbox.js", "sandbox");
      ("build/minified/image_decoders/pdf.image_decoders.js", "decoders");
      ("build/minified/web/viewer.js", "viewer");
      ("build/minified/web/debugger.js", "debugger") ].

(** A platform whose minifier rejects the worker bundle. *)
Definition picky_platform : Platform :=
  {| dirname := "/repo";
     config := ConfigFile "v4.0.0" "4.0.";
     JSON_parse := @JSON_parse quiet_platform;
     JSON_stringify := @JSON_stringify quiet_platform;
     webpack := @webpack quiet_platform;
     minify := fun input =>
       match input with
       | MinCode code =>
           if bool_decide (code = "worker")
           then Throw (ToolError "terser" "parse error")
           else Ok code
       | MinFiles named => Ok (String.concat "" (snd <$> named))
       end;
     exec := @exec quiet_platform;
     import_preferences := @import_preferences quiet_platform |}.

(** * Notions used in the statements *)

(** ** Texts *)

(** What a tame line offers: a settled text [F] that every pass fixes and
    that every pass either reaches from the line or leaves the line alone. *)
Definition settles (fs : list (string -> string)) (l F : string) : Prop :=
  Forall (fun f => f F = F) fs
  /\ Forall (fun f => f l = l \/ f l = F) fs
  /\ Exists (fun f => f l = F) fs.

(** ** Paths *)

(** The last segment of a resolved path. *)
Definition leaf (k : bool * list string) : string := default "" (last k.2).

Definition version_key : bool * list string := resolve (BUILD_DIR +:+ "version.json").

Definition scripting_key : bool * list string := resolve scriptingPath.

(** ** Runs *)

(** From [w] to [w'] nothing happened but reads of files, allocations of
    objects and assignments to the object [out]. *)
Definition frame (out : option positive) (w w' : world) : Prop :=
  files w' = files w
  /\ env w' = env w
  /\ (exists tr, trace w' = trace w ++ tr /\ Forall (fun e => is_read e = true) tr)
  /\ dom (heap w) ⊆ dom (heap w')
  /\ (forall l, l ∈ dom (heap w) -> Some l <> out -> heap w' !! l = heap w !! l).

Definition quiet {A} (out : option positive) (m : M A) : Prop :=
  forall w r w', m w = (r, w') -> frame out w w'.

(** Only reads of files happened between two worlds. *)
Definition reads_only (w w' : world) : Prop :=
  files w' = files w
  /\ exists tr, trace w' = trace w ++ tr /\ Forall (fun e => is_read e = true) tr.

(** Computations all of whose events satisfy [P]. *)
Definition emits {A} (P : event -> Prop) (m : M A) : Prop :=
  forall w r w', m w = (r, w') -> exists tr, trace w' = trace w ++ tr /\ Forall P tr.

Definition is_minify (e : event) : bool :=
  match e with
  | EvMinify _ => true
  | _ => false
  end.

(** The [TESTING] entry as the specification words it: the flag of the
    caller when that is neither [null] nor [undefined], otherwise whether
    the environment variable [TESTING] is the string ["true"].  It is compared
    with [testingDefine], which is the expression of the script. *)
Definition testing_value (t : value) (e : gmap string string) : value :=
  if nullish t then VBool (bool_decide (e !! "TESTING" = Some "true")) else t.


(** ** Minification *)

(** The events of a completed minification, and the files it leaves. *)
Definition minify_trace (dir pdf worker sandbox img viewer : string) : list event :=
  [ EvRead (resolve (dir +:+ "/build/pdf.js"));
    EvRead (resolve (dir +:+ "/build/pdf.worker.js"));
    EvRead (resolve (dir +:+ "/build/pdf.sandbox.js"));
    EvRead (resolve (dir +:+ "/image_decoders/pdf.image_decoders.js"));
    EvRead (resolve (dir +:+ "/web/viewer.js"));
    EvLog "";
    EvLog "### Minifying js files";
    EvMinify (MinFiles [("pdf.js", pdf); ("viewer.js", viewer)]);
    EvWrite (resolve (dir +:+ "/web/pdf.viewer.js"));
    EvMinify (MinCode pdf);
    EvWrite (resolve (dir +:+ "/build/pdf.min.js"));
    EvMinify (MinCode worker);
    EvWrite (resolve (dir +:+ "/build/pdf.worker.min.js"));
    EvMinify (MinCode sandbox);
    EvWrite (resolve (dir +:+ "/build/pdf.sandbox.min.js"));
    EvMinify (MinCode img);
    EvWrite (resolve (dir +:+ "image_decoders/pdf.image_decoders.min.js")) ].

Definition minified_files
    (dir : string) (fs : gmap (bool * list string) string)
    (c1 c2 c3 c4 c5 : string) : gmap (bool * list string) string :=
  <[resolve (dir +:+ "image_decoders/pdf.image_decoders.min.js") := c5]>
    (<[resolve (dir +:+ "/build/pdf.sandbox.min.js") := c4]>
       (<[resolve (dir +:+ "/build/pdf.worker.min.js") := c3]>
          (<[resolve (dir +:+ "/build/pdf.min.js") := c2]>
             (<[resolve (dir +:+ "/web/pdf.viewer.js") := c1]> fs)))).

(** The files left by a completed cleaning. *)
Definition cleaned_files
    (dir : string) (fs : gmap (bool * list string) string)
    (c2 c3 c4 c5 : string) : gmap (bool * list string) string :=
  <[resolve (dir +:+ "/image_decoders/pdf.image_decoders.js") := c5]>
    (delete (resolve (dir +:+ "image_decoders/pdf.image_decoders.min.js"))
       (<[resolve (dir +:+ "/build/pdf.sandbox.js") := c4]>
          (delete (resolve (dir +:+ "/build/pdf.sandbox.min.js"))
             (<[resolve (dir +:+ "/build/pdf.worker.js") := c3]>
                (delete (resolve (dir +:+ "/build/pdf.worker.min.js"))
                   (<[resolve (dir +:+ "/build/pdf.js") := c2]>
                      (delete (resolve (dir +:+ "/build/pdf.min.js"))
                         (delete (resolve (dir +:+ "/build/pdf.sandbox.js"))
                            (delete (resolve (dir +:+ "/build/pdf.worker.js"))
                               (delete (resolve (dir +:+ "/build/pdf.js"))
                                  (delete (resolve (dir +:+ "/web/debugger.js"))
                                     (delete (resolve (dir +:+ "/web/viewer.js"))
                                        fs)))))))))))).

Section Stopping.
Context `{Platform}.

(** How a run of [parseMinified] can stop before the cleaning begins. *)
Definition stopped_minifying
    (dir : string) (w : world) (r : outcome unit) (w' : world) : Prop :=
  exists e tr,
    r = Throw e
    /\ trace w' = trace w ++ tr
    /\ Forall (fun ev => is_removal ev = false) tr
    /\ (forall k,
          Forall (fun p => k <> resolve p) (minified_outputs dir) ->
          files w' !! k = files w !! k)
    /\ (forall input e0,
          EvMinify input ∈ tr -> minify input = Throw e0 -> e0 = e).

End Stopping.

(** * Properties of the text passes *)

Section Substitution.

Lemma prefix_length s t : String.prefix s t = true -> String.length s <= String.length t.
Proof.
  revert t; induction s as [|a s IH]; intros [|b t]; simpl; try lia; try discriminate.
  destruct (ascii_dec a b); [|discriminate]. intros Hp. apply IH in Hp. lia.
Qed.

Lemma app_cons x a b : String x a +:+ b = String x (a +:+ b).
Proof. reflexivity. Qed.

Lemma app_empty_l b : "" +:+ b = b.
Proof. reflexivity. Qed.

Lemma prefix_empty t : String.prefix "" t = true.
Proof. by destruct t. Qed.

Lemma prefix_app_l s a b : String.prefix s a = true -> String.prefix s (a +:+ b) = true.
Proof.
  revert a; induction s as [|x s IH]; intros a; [intros _; apply prefix_empty|].
  destruct a as [|y a]; [done|]. rewrite app_cons. simpl.
  destruct (ascii_dec x y); [|done]. apply IH.
Qed.

Lemma split_from_cons sep k t : split_from sep k t <> [].
Proof.
  revert k; induction t as [|c t IH]; intros k; cbn [split_from];
    [intros E; discriminate E|].
  destruct k; [|apply IH].
  destruct (String.prefix sep (String c t)); [intros E; discriminate E|].
  destruct (split_from sep 0 t); intros E; discriminate E.
Qed.

Lemma concat_cons_ne glue x l :
  l <> [] -> String.concat glue (x :: l) = x +:+ glue +:+ String.concat glue l.
Proof. destruct l; done. Qed.

Lemma join_split_from sep r k t :
  String.concat r (split_from sep k t) = subst_from sep r k t.
Proof.
  revert k; induction t as [|c t IH]; intros k; cbn [split_from subst_from]; [done|].
  destruct k; [|apply IH].
  destruct (String.prefix sep (String c t)).
  - rewrite concat_cons_ne by apply split_from_cons. by rewrite IH.
  - rewrite <- IH.
    destruct (split_from sep 0 t) as [|ch rest] eqn:E.
    + by apply split_from_cons in E.
    + destruct rest; done.
Qed.

Lemma gulp_replace_scan sep r t :
  sep <> "" -> gulp_replace sep r t = subst_from sep r 0 t.
Proof.
  intros Hne. unfold gulp_replace, js_join, js_split.
  destruct sep; [done|]. apply join_split_from.
Qed.

Lemma subst_from_absent sep r t :
  occurs sep t = false -> subst_from sep r 0 t = t.
Proof.
  induction t as [|c t IH]; [done|].
  cbn [occurs subst_from]. intros [Hp Ho]%orb_false_iff.
  rewrite Hp. f_equal. by apply IH.
Qed.

Lemma gulp_replace_absent sep r t :
  sep <> "" -> occurs sep t = false -> gulp_replace sep r t = t.
Proof. intros. rewrite gulp_replace_scan by done. by apply subst_from_absent. Qed.

(** A character outside the search string is a barrier for the scan. *)
Lemma prefix_barrier sep c a b :
  has_char c sep = false ->
  String.prefix sep (a +:+ String c b) = String.prefix sep a.
Proof.
  revert a; induction sep as [|x sep IH]; intros a Hc; [by destruct a|].
  simpl in Hc. apply orb_false_iff in Hc as [Hx Hc].
  apply bool_decide_eq_false in Hx.
  destruct a as [|y a]; simpl.
  - destruct (ascii_dec x c); [done|done].
  - destruct (ascii_dec x y); [|done]. by apply IH.
Qed.

Lemma app_assoc_string (r u v : string) : (r +:+ u) +:+ v = r +:+ (u +:+ v).
Proof. induction r as [|x r IH]; [done|]. rewrite !app_cons. by f_equal. Qed.

Lemma subst_from_barrier sep r c b :
  sep <> "" -> has_char c sep = false ->
  forall a k, k <= String.length a ->
    subst_from sep r k (a +:+ String c b)
    = subst_from sep r k a +:+ String c (subst_from sep r 0 b).
Proof.
  intros Hne Hc. induction a as [|x a IH]; intros k Hk.
  - simpl in Hk. assert (k = 0) as -> by lia.
    rewrite app_empty_l. cbn [subst_from].
    pose proof (prefix_barrier sep c "" b Hc) as Hp.
    rewrite app_empty_l in Hp. rewrite Hp.
    destruct sep; done.
  - rewrite app_cons. cbn [subst_from]. destruct k as [|k].
    + pose proof (prefix_barrier sep c (String x a) b Hc) as Hp.
      rewrite app_cons in Hp. rewrite Hp.
      destruct (String.prefix sep (String x a)) eqn:E.
      * apply prefix_length in E. simpl in E.
        rewrite IH by lia. by rewrite app_assoc_string.
      * rewrite app_cons. f_equal. apply IH. lia.
    + apply IH. simpl in Hk. lia.
Qed.

Lemma gulp_replace_unlines sep r lines :
  sep <> "" -> has_char newline sep = false ->
  gulp_replace sep r (unlines lines) = unlines (gulp_replace sep r <$> lines).
Proof.
  intros Hne Hc. rewrite gulp_replace_scan by done.
  induction lines as [|l lines IH]; [done|].
  destruct lines as [|l' lines].
  - simpl. by rewrite gulp_replace_scan.
  - rewrite !fmap_cons. rewrite !fmap_cons in IH.
    change (unlines (l :: l' :: lines))
      with (l +:+ String newline (unlines (l' :: lines))).
    rewrite subst_from_barrier by (done || lia).
    rewrite IH, <- gulp_replace_scan by done. reflexivity.
Qed.

End Substitution.

(** Splits a [Forall] over the three passes into its three goals. *)
Ltac split_passes :=
  unfold passes;
  constructor; [|constructor; [|constructor; [|constructor]]];
  cbv beta.

Section Passes.

Variables (amdName jsName : string).

Lemma has_char_app c a b : has_char c (a +:+ b) = has_char c a || has_char c b.
Proof.
  induction a as [|x a IH]; [done|]. rewrite app_cons. simpl.
  rewrite IH. by rewrite orb_assoc.
Qed.

Lemma rootAssignment_nonempty : rootAssignment amdName <> "".
Proof. intros E. discriminate E. Qed.

Lemma rootAssignment_newline :
  has_char newline amdName = false ->
  has_char newline (rootAssignment amdName) = false.
Proof.
  intros Hn. unfold rootAssignment. rewrite !has_char_app, Hn. reflexivity.
Qed.

Lemma clean_fixed u :
  clean amdName u = true -> Forall (fun f => f u = u) (passes amdName jsName).
Proof.
  unfold clean. rewrite !andb_true_iff, !negb_true_iff. intros [[H1 H2] H3].
  split_passes.
  - by apply gulp_replace_absent.
  - by apply gulp_replace_absent.
  - apply gulp_replace_absent; [apply rootAssignment_nonempty|done].
Qed.

Lemma tame_settles l :
  tame amdName jsName l = true ->
  exists F, settles (passes amdName jsName) l F.
Proof.
  unfold tame. rewrite !orb_true_iff, !andb_true_iff, !negb_true_iff.
  intros [[[[H2 H3] Hc]|[[H1 H3] Hc]]|[[H1 H2] Hc]].
  - exists (replaceWebpackRequire l). split; [by apply clean_fixed|]. split.
    + split_passes.
      * by right.
      * left. by apply gulp_replace_absent.
      * left. apply gulp_replace_absent; [apply rootAssignment_nonempty|done].
    + by constructor.
  - exists (replaceNonWebpackImport l). split; [by apply clean_fixed|]. split.
    + split_passes.
      * left. by apply gulp_replace_absent.
      * by right.
      * left. apply gulp_replace_absent; [apply rootAssignment_nonempty|done].
    + apply Exists_cons_tl. by constructor.
  - exists (replaceJSRootName amdName jsName l). split; [by apply clean_fixed|]. split.
    + split_passes.
      * left. by apply gulp_replace_absent.
      * left. by apply gulp_replace_absent.
      * by right.
    + do 2 apply Exists_cons_tl. by constructor.
Qed.

Lemma passes_unlines :
  has_char newline amdName = false ->
  Forall (fun f => forall ls, f (unlines ls) = unlines (f <$> ls))
    (passes amdName jsName).
Proof.
  intros Hn. split_passes; intros ls; apply gulp_replace_unlines;
    try done; try (intros E; discriminate E).
  by apply rootAssignment_newline.
Qed.

End Passes.

Lemma pipe_fixed (order : list (string -> string)) F :
  Forall (fun f => f F = F) order -> pipe_text order F = F.
Proof.
  induction 1 as [|f order Hf _ IH]; [done|].
  unfold pipe_text in *. simpl. by rewrite Hf.
Qed.

Lemma pipe_reaches (order : list (string -> string)) l F :
  Forall (fun f => f F = F) order ->
  Forall (fun f => f l = l \/ f l = F) order ->
  Exists (fun f => f l = F) order \/ l = F ->
  pipe_text order l = F.
Proof.
  intros Hfix Hstep Hex.
  induction order as [|f order IH].
  - destruct Hex as [Hex|Hex]; [by apply Exists_nil in Hex|done].
  - apply Forall_cons_1 in Hfix as [HfF Hfix].
    apply Forall_cons_1 in Hstep as [Hfl Hstep].
    change (pipe_text (f :: order) l) with (pipe_text order (f l)).
    destruct Hfl as [Hfl|Hfl]; rewrite Hfl; [|by apply pipe_fixed].
    apply IH; try done.
    destruct Hex as [Hex|Hex]; [|by right].
    apply Exists_cons in Hex as [Hex|Hex]; [right; congruence|by left].
Qed.

Lemma pipe_settles (order : list (string -> string)) l F :
  settles order l F -> pipe_text order l = F.
Proof. intros (Hfix & Hstep & Hex). apply pipe_reaches; auto. Qed.

Lemma settles_permutation (fs order : list (string -> string)) l F :
  Permutation order fs -> settles fs l F -> settles order l F.
Proof.
  intros Hp (Hfix & Hstep & Hex). symmetry in Hp. repeat split.
  - eapply Permutation_Forall; eauto.
  - eapply Permutation_Forall; eauto.
  - eapply Permutation_Exists; eauto.
Qed.

Lemma pipe_unlines (order : list (string -> string)) :
  Forall (fun f => forall ls, f (unlines ls) = unlines (f <$> ls)) order ->
  forall ls, pipe_text order (unlines ls) = unlines (pipe_text order <$> ls).
Proof.
  induction 1 as [|f order Hf _ IH]; intros ls.
  - unfold pipe_text. simpl. by rewrite list_fmap_id.
  - change (pipe_text (f :: order) (unlines ls))
      with (pipe_text order (f (unlines ls))).
    rewrite Hf, IH. f_equal. rewrite <- list_fmap_compose. done.
Qed.

(** C2, counterexample.  The passes are not idempotent on every text, and
    their order matters on some texts: an occurrence of a search string can
    be assembled from the replacement and its neighbourhood.  On
    [__webpack_require__webpack_require__] the rename pass applied twice
    differs from the rename pass applied once; on
    [__non_webpack___non_webpack_import____] the same holds for the import
    pass; on [__webpack_require__non_webpack_import__] swapping the first two
    passes changes the result. *)
Lemma passes_not_idempotent_not_commuting :
  replaceWebpackRequire
    (replaceWebpackRequire "__webpack_require__webpack_require__")
  <> replaceWebpackRequire "__webpack_require__webpack_require__"
  /\ replaceNonWebpackImport
       (replaceNonWebpackImport "__non_webpack___non_webpack_import____")
     <> replaceNonWebpackImport "__non_webpack___non_webpack_import____"
  /\ Permutation
       [ replaceNonWebpackImport; replaceWebpackRequire;
         replaceJSRootName "pdfjs-dist/build/pdf" "pdfjsLib" ]
       (passes "pdfjs-dist/build/pdf" "pdfjsLib")
  /\ pipe_text
       [ replaceNonWebpackImport; replaceWebpackRequire;
         replaceJSRootName "pdfjs-dist/build/pdf" "pdfjsLib" ]
       "__webpack_require__non_webpack_import__"
     <> pipe_text (passes "pdfjs-dist/build/pdf" "pdfjsLib")
          "__webpack_require__non_webpack_import__".
Proof.
  split; [|split; [|split]].
  - vm_compute. intros E. discriminate E.
  - vm_compute. intros E. discriminate E.
  - apply perm_swap.
  - vm_compute. intros E. discriminate E.
Qed.

(** C2, as amended.  On a text each of whose lines is tame (at most one of
    the three search strings occurs in the line, and the pass for it leaves
    none of the three in the line), each of the three passes is idempotent
    and the three passes applied in any order give the same text. *)
Theorem passes_idempotent_and_commute_on_tame_lines
    (amdName jsName : string) (lines : list string) :
  has_char newline amdName = false ->
  Forall (fun l => tame amdName jsName l = true) lines ->
  Forall (fun f => f (f (unlines lines)) = f (unlines lines))
    (passes amdName jsName)
  /\ (forall order,
        Permutation order (passes amdName jsName) ->
        pipe_text order (unlines lines)
        = pipe_text (passes amdName jsName) (unlines lines)).
Proof.
  intros Hn Htame.
  pose proof (passes_unlines amdName jsName Hn) as Hdist.
  split.
  - apply Forall_forall. intros f Hf.
    pose proof (proj1 (Forall_forall _ _) Hdist f Hf) as Hd.
    rewrite !Hd. f_equal. rewrite <- list_fmap_compose.
    apply Forall_fmap_ext_1. eapply Forall_impl; [exact Htame|].
    intros l Hl. cbv beta. unfold compose.
    destruct (tame_settles amdName jsName l Hl) as (F & Hfix & Hstep & _).
    pose proof (proj1 (Forall_forall _ _) Hfix f Hf) as HF.
    pose proof (proj1 (Forall_forall _ _) Hstep f Hf) as [E|E]; cbv beta in *.
    + by rewrite !E.
    + by rewrite E, HF.
  - intros order Hp.
    rewrite !pipe_unlines; [|exact Hdist|].
    2: { eapply Permutation_Forall; [symmetry; exact Hp|exact Hdist]. }
    f_equal. apply Forall_fmap_ext_1. eapply Forall_impl; [exact Htame|].
    intros l Hl. cbv beta.
    destruct (tame_settles amdName jsName l Hl) as (F & HF).
    rewrite (pipe_settles _ l F HF).
    apply pipe_settles. by apply (settles_permutation (passes amdName jsName)).
Qed.

Lemma passes_idempotent_and_commute_on_tame_lines_witness :
  let amd := "pdfjs-dist/build/pdf" in
  let js := "pdfjsLib" in
  let lines :=
    [ "  " +:+ rootAssignment amd +:+ ";";
      "var lib = __webpack_require__(3);";
      "return __non_webpack_import__(url);" ] in
  has_char newline amd = false
  /\ Forall (fun l => tame amd js l = true) lines
  /\ (Forall (fun f => f (f (unlines lines)) = f (unlines lines)) (passes amd js)
      /\ (forall order,
            Permutation order (passes amd js) ->
            pipe_text order (unlines lines)
            = pipe_text (passes amd js) (unlines lines))).
Proof.
  intros amd js lines.
  assert (Hn : has_char newline amd = false) by reflexivity.
  assert (Ht : Forall (fun l => tame amd js l = true) lines).
  { repeat (apply List.Forall_cons; [vm_compute; reflexivity|]). apply List.Forall_nil. }
  split; [exact Hn|]. split; [exact Ht|].
  exact (passes_idempotent_and_commute_on_tame_lines amd js lines Hn Ht).
Defined.

(** Closed decidable statements are settled by evaluating their decision. *)
Ltac decide_by_computation :=
  match goal with
  | |- ?P => apply (bool_decide_eq_true_1 P); vm_compute; reflexivity
  end.

(** A run on a concrete world returns: settled by evaluating the run. *)
Ltac returns_by_computation :=
  match goal with
  | |- exists a w', ?m = (Ok a, w') =>
      let Hok := fresh "Hok" in
      assert (Hok : match m with (Ok _, _) => True | (Throw _, _) => False end)
        by (vm_compute; exact I);
      destruct m as [[?|?] ?]; [eauto|destruct Hok]
  end.

(** * Frames: what a computation may touch *)

Lemma frame_refl out w : frame out w w.
Proof.
  repeat split; try done. exists []. by rewrite app_nil_r.
Qed.

Lemma frame_trans out w1 w2 w3 :
  frame out w1 w2 -> frame out w2 w3 -> frame out w1 w3.
Proof.
  intros (Hf1 & He1 & (t1 & Ht1 & Hr1) & Hd1 & Hh1)
         (Hf2 & He2 & (t2 & Ht2 & Hr2) & Hd2 & Hh2).
  repeat split.
  - congruence.
  - congruence.
  - exists (t1 ++ t2). split.
    + rewrite Ht2, Ht1. by rewrite app_assoc.
    + by apply Forall_app.
  - set_solver.
  - intros l Hl Hne. rewrite Hh2; [by apply Hh1| |done]. by apply Hd1.
Qed.

Lemma quiet_ret {A} out (a : A) : quiet out (ret a).
Proof. intros w r w' [= <- <-]. apply frame_refl. Qed.

Lemma quiet_throw {A} out e : quiet out (@throw A e).
Proof. intros w r w' [= <- <-]. apply frame_refl. Qed.

Lemma quiet_lift {A} out (o : outcome A) : quiet out (lift o).
Proof. intros w r w' [= <- <-]. apply frame_refl. Qed.

Lemma quiet_ask {A} out (f : world -> A) : quiet out (ask f).
Proof. intros w r w' [= <- <-]. apply frame_refl. Qed.

Lemma quiet_bind {A B} out (m : M A) (k : A -> M B) :
  quiet out m -> (forall a, quiet out (k a)) -> quiet out (bind m k).
Proof.
  intros Hm Hk w r w'. unfold bind.
  destruct (m w) as [[a|e] w1] eqn:E; intros Hr.
  - eapply frame_trans; [eapply Hm; eauto|eapply Hk; eauto].
  - injection Hr as <- <-. eapply Hm; eauto.
Qed.

Lemma quiet_readFileSync out p : quiet out (readFileSync p).
Proof.
  intros w r w'. unfold readFileSync, bind, ask, emit, ret, throw. simpl.
  destruct (files w !! resolve p); intros [= <- <-]; [|apply frame_refl].
  repeat split; try done. simpl. eexists. split; [done|]. by repeat constructor.
Qed.

Lemma quiet_get_prop out o k : quiet out (get_prop o k).
Proof.
  intros w r w'. unfold get_prop, bind, ask, ret, throw. simpl.
  destruct (heap w !! o); intros [= <- <-]; apply frame_refl.
Qed.

Lemma quiet_new_object out fields : quiet out (new_object fields).
Proof.
  intros w r w'. unfold new_object, bind, ask, ret, set_heap. simpl.
  intros [= <- <-]. repeat split; simpl; try done.
  - exists []. by rewrite app_nil_r.
  - set_solver.
  - intros l Hl _. apply lookup_insert_ne. intros <-.
    by apply (is_fresh (dom (heap w))).
Qed.

Lemma quiet_builder_merge out a b : quiet out (builder_merge a b).
Proof.
  intros w r w'. unfold builder_merge, bind, ask, ret, set_heap, throw. simpl.
  destruct (heap w !! a), (heap w !! b); intros [= <- <-]; try apply frame_refl.
  repeat split; simpl; try done.
  - exists []. by rewrite app_nil_r.
  - set_solver.
  - intros l Hl _. apply lookup_insert_ne. intros <-.
    by apply (is_fresh (dom (heap w))).
Qed.

Lemma quiet_set_prop o k v : quiet (Some o) (set_prop o k v).
Proof.
  intros w r w'. unfold set_prop, bind, ask, ret, set_heap, throw. simpl.
  destruct (heap w !! o) as [ob|] eqn:E; [|intros [= <- <-]; apply frame_refl].
  destruct (frozen ob); intros [= <- <-]; [apply frame_refl|].
  repeat split; simpl; try done.
  - exists []. by rewrite app_nil_r.
  - set_solver.
  - intros l Hl Hne. apply lookup_insert_ne. congruence.
Qed.

Lemma quiet_member out v k : quiet out (member v k).
Proof. destruct v; simpl; (apply quiet_ret || apply quiet_throw). Qed.

Lemma quiet_opt_member out v k : quiet out (opt_member v k).
Proof.
  unfold opt_member. destruct (nullish v); [apply quiet_ret|apply quiet_member].
Qed.

Section FramesOfScript.
Context `{Platform}.

Lemma quiet_testingDefine out d : quiet out (testingDefine d).
Proof.
  unfold testingDefine. apply quiet_bind; [apply quiet_get_prop|].
  intros t. destruct (nullish t); [|apply quiet_ret].
  apply quiet_bind; [apply quiet_ask|intros; apply quiet_ret].
Qed.

Lemma quiet_read_object out o : quiet out (read_object o).
Proof.
  intros w r w'. unfold read_object, bind, ask, ret, throw. simpl.
  destruct (heap w !! o); intros [= <- <-]; apply frame_refl.
Qed.

Lemma quiet_getVersionJSON out : quiet out getVersionJSON.
Proof.
  unfold getVersionJSON.
  apply quiet_bind; [apply quiet_readFileSync|intros; apply quiet_lift].
Qed.

Lemma quiet_getDefaultPreferences out dir : quiet out (getDefaultPreferences dir).
Proof.
  unfold getDefaultPreferences.
  apply quiet_bind; [apply quiet_readFileSync|intros; apply quiet_lift].
Qed.

Lemma quiet_createWebpackConfig defines output opts :
  quiet (Some output) (createWebpackConfig defines output opts).
Proof.
  unfold createWebpackConfig.
  apply quiet_bind.
  { destruct (negb _); [apply quiet_getVersionJSON|apply quiet_ret]. }
  intros versionInfo.
  apply quiet_bind; [apply quiet_member|intros bundle_version].
  apply quiet_bind; [apply quiet_member|intros bundle_build].
  apply quiet_bind; [apply quiet_testingDefine|intros testing].
  apply quiet_bind.
  { destruct (defaultPreferencesDir opts) as [dir|]; [|apply quiet_ret].
    destruct (bool_decide _); [apply quiet_ret|apply quiet_getDefaultPreferences]. }
  intros preferences.
  apply quiet_bind; [apply quiet_new_object|intros overrides].
  apply quiet_bind; [apply quiet_builder_merge|intros bundleDefines].
  apply quiet_bind; [apply quiet_readFileSync|intros licenseHeaderLibre].
  apply quiet_bind; [apply quiet_read_object|intros d].
  apply quiet_bind; [apply quiet_get_prop|intros library].
  apply quiet_bind; [apply quiet_opt_member|intros library_type].
  apply quiet_bind; [apply quiet_set_prop|intros _].
  apply quiet_ret.
Qed.

End FramesOfScript.

(** * Successful runs, step by step *)

Lemma bind_ok {A B} (m : M A) (k : A -> M B) w b w' :
  bind m k w = (Ok b, w') ->
  exists a w1, m w = (Ok a, w1) /\ k a w1 = (Ok b, w').
Proof.
  unfold bind. destruct (m w) as [[a|e] w1]; [eauto|]. intros E. discriminate E.
Qed.

Lemma ret_ok {A} (a b : A) w w' : ret a w = (Ok b, w') -> b = a /\ w' = w.
Proof. by intros [= <- <-]. Qed.

Lemma lift_ok {A} (o : outcome A) a w w' :
  lift o w = (Ok a, w') -> o = Ok a /\ w' = w.
Proof. by intros [= -> <-]. Qed.

Lemma readFileSync_ok p w c w' :
  readFileSync p w = (Ok c, w') ->
  files w !! resolve p = Some c
  /\ w' = World (heap w) (files w) (env w) (trace w ++ [EvRead (resolve p)]).
Proof.
  unfold readFileSync, bind, ask, emit, ret, throw. simpl.
  destruct (files w !! resolve p); intros E; [|discriminate E].
  by injection E as <- <-.
Qed.

Lemma get_prop_ok o k w v w' :
  get_prop o k w = (Ok v, w') ->
  exists ob, heap w !! o = Some ob
    /\ v = default VUndefined (props ob !! k) /\ w' = w.
Proof.
  unfold get_prop, bind, ask, ret, throw. simpl.
  destruct (heap w !! o) as [ob|]; intros E; [|discriminate E].
  injection E as <- <-. eauto.
Qed.

Lemma read_object_ok o w d w' :
  read_object o w = (Ok d, w') ->
  exists ob, heap w !! o = Some ob /\ d = props ob /\ w' = w.
Proof.
  unfold read_object, bind, ask, ret, throw. simpl.
  destruct (heap w !! o) as [ob|]; intros E; [|discriminate E].
  injection E as <- <-. eauto.
Qed.

Lemma new_object_ok fields w l w' :
  new_object fields w = (Ok l, w') ->
  l = fresh (dom (heap w))
  /\ w' = World (<[l := JsObj (literal fields) false]> (heap w))
            (files w) (env w) (trace w).
Proof.
  unfold new_object, bind, ask, ret, set_heap. simpl. by intros [= <- <-].
Qed.

Lemma builder_merge_ok a b w l w' :
  builder_merge a b w = (Ok l, w') ->
  exists base over,
    heap w !! a = Some base /\ heap w !! b = Some over
    /\ l = fresh (dom (heap w))
    /\ w' = World (<[l := JsObj (props over ∪ props base) false]> (heap w))
              (files w) (env w) (trace w).
Proof.
  unfold builder_merge, bind, ask, ret, set_heap, throw. simpl.
  destruct (heap w !! a) as [base|], (heap w !! b) as [over|];
    intros E; try discriminate E.
  injection E as <- <-. eauto 10.
Qed.

Lemma set_prop_ok o k v w u w' :
  set_prop o k v w = (Ok u, w') ->
  exists ob, heap w !! o = Some ob /\ frozen ob = false
    /\ w' = World (<[o := JsObj (<[k := v]> (props ob)) false]> (heap w))
              (files w) (env w) (trace w).
Proof.
  unfold set_prop, bind, ask, ret, set_heap, throw. simpl.
  destruct (heap w !! o) as [ob|]; [|intros E; discriminate E].
  destruct (frozen ob) eqn:F; intros E; [discriminate E|].
  injection E as <- <-. eauto.
Qed.

Lemma emit_ok e w u w' :
  emit e w = (Ok u, w') ->
  w' = World (heap w) (files w) (env w) (trace w ++ [e]).
Proof. by intros [= _ <-]. Qed.

Lemma writeFileSync_ok p c w u w' :
  writeFileSync p c w = (Ok u, w') ->
  w' = World (heap w) (<[resolve p := c]> (files w)) (env w)
         (trace w ++ [EvWrite (resolve p)]).
Proof. by intros [= _ <-]. Qed.

Lemma member_ok v k w x w' : member v k w = (Ok x, w') -> w' = w.
Proof. destruct v; simpl; intros E; by injection E. Qed.

Lemma opt_member_ok v k w x w' : opt_member v k w = (Ok x, w') -> w' = w.
Proof.
  unfold opt_member. destruct (nullish v); [by intros [= _ <-]|apply member_ok].
Qed.

Section RunsOfScript.
Context `{Platform}.

Lemma testingDefine_ok defines w v w' :
  testingDefine defines w = (Ok v, w') ->
  exists ob, heap w !! defines = Some ob
    /\ v = testing_value (flag (props ob) "TESTING") (env w) /\ w' = w.
Proof.
  unfold testingDefine. intros (t & w1 & Hg & Hk)%bind_ok.
  apply get_prop_ok in Hg as (ob & Hob & -> & ->).
  exists ob. split; [done|]. unfold testing_value, flag.
  destruct (nullish _); [|by injection Hk as <- <-].
  unfold bind, ask, ret in Hk. simpl in Hk. by injection Hk as <- <-.
Qed.

(** A successful [createWebpackConfig]: two objects were allocated (the
    literal of overrides and the merged flag set) and the output descriptor
    received its [globalObject]. *)
Lemma createWebpackConfig_ok defines out opts w cfg w' :
  createWebpackConfig defines out opts w = (Ok cfg, w') ->
  exists base version build prefs descriptor,
    let overrides :=
      [ ("BUNDLE_VERSION", version);
        ("BUNDLE_BUILD", build);
        ("TESTING", testing_value (flag (props base) "TESTING") (env w));
        ("DEFAULT_PREFERENCES", prefs) ] in
    let merged := literal overrides ∪ props base in
    let l1 := fresh (dom (heap w)) in
    let h1 := <[l1 := JsObj (literal overrides) false]> (heap w) in
    let l2 := fresh (dom h1) in
    let h2 := <[l2 := JsObj merged false]> h1 in
    heap w !! defines = Some base
    /\ h2 !! out = Some descriptor
    /\ frozen descriptor = false
    /\ heap w' =
         <[out := JsObj (<["globalObject" := VStr "globalThis"]> (props descriptor)) false]> h2
    /\ output cfg = out
    /\ loader_defines cfg = l2
    /\ resolve_alias cfg = path_join dirname <$> aliasTable merged.
Proof.
  unfold createWebpackConfig.
  intros (versionInfo & w1 & Hv & Hk)%bind_ok.
  assert (Hw1 : heap w1 = heap w /\ env w1 = env w).
  { destruct (negb _).
    - unfold getVersionJSON in Hv.
      apply bind_ok in Hv as (s & w0 & (_ & ->)%readFileSync_ok & (_ & ->)%lift_ok).
      done.
    - by injection Hv as _ <-. }
  clear Hv. destruct Hw1 as [Hh1 He1].
  apply bind_ok in Hk as (version & w2 & ->%member_ok & Hk).
  apply bind_ok in Hk as (build & w2 & ->%member_ok & Hk).
  apply bind_ok in Hk as (testing & w2 & (base & Hbase & -> & ->)%testingDefine_ok & Hk).
  apply bind_ok in Hk as (prefs & w2 & Hp & Hk).
  assert (Hw2 : heap w2 = heap w /\ env w2 = env w).
  { destruct (defaultPreferencesDir opts) as [dir|].
    - destruct (bool_decide _).
      + by injection Hp as _ <-.
      + unfold getDefaultPreferences in Hp.
        apply bind_ok in Hp as (s & w0 & (_ & ->)%readFileSync_ok & (_ & ->)%lift_ok).
        done.
    - by injection Hp as _ <-. }
  clear Hp. destruct Hw2 as [Hh2 He2].
  apply bind_ok in Hk as (l1 & w3 & (-> & ->)%new_object_ok & Hk).
  apply bind_ok in Hk as (l2 & w4 & (b & o & Hb & Ho & -> & ->)%builder_merge_ok & Hk).
  apply bind_ok in Hk as (header & w5 & (_ & ->)%readFileSync_ok & Hk).
  apply bind_ok in Hk as (d & w6 & (ob & Hob & -> & ->)%read_object_ok & Hk).
  apply bind_ok in Hk as (library & w6 & (ob' & _ & _ & ->)%get_prop_ok & Hk).
  apply bind_ok in Hk as (library_type & w6 & ->%opt_member_ok & Hk).
  apply bind_ok in Hk as (u & w6 & (descriptor & Hd & Hfr & ->)%set_prop_ok & Hk).
  apply ret_ok in Hk as [-> ->].
  cbn [heap files env trace] in *.
  rewrite Hh2 in *. rewrite Hh1 in Hbase. rewrite He1 in *.
  rewrite lookup_insert_eq in Ho. injection Ho as <-.
  rewrite lookup_insert_ne in Hb.
  2: { intros E. pose proof (is_fresh (dom (heap w))) as Hf.
       rewrite E in Hf. apply Hf. apply elem_of_dom. by rewrite Hbase. }
  rewrite Hbase in Hb. injection Hb as <-.
  rewrite lookup_insert_eq in Hob. injection Hob as <-.
  exists base, version, build, prefs, descriptor. cbv zeta.
  split; [exact Hbase|]. split; [exact Hd|]. split; [exact Hfr|].
  repeat (split; [reflexivity|]). reflexivity.
Qed.

End RunsOfScript.

(** * The bundler configuration *)

Lemma fresh_not_allocated (h : gmap positive jsobj) l :
  is_Some (h !! l) -> fresh (dom h) <> l.
Proof. idtac.
  intros Hl E. apply (is_fresh (dom h)). rewrite E. by apply elem_of_dom.
Qed.

Lemma lookup_alloc (h : gmap positive jsobj) o l :
  is_Some (h !! l) -> <[fresh (dom h) := o]> h !! l = h !! l.
Proof. intros Hl. apply lookup_insert_ne. by apply fresh_not_allocated. Qed.

Lemma is_Some_alloc (h : gmap positive jsobj) o l :
  is_Some (h !! l) -> is_Some (<[fresh (dom h) := o]> h !! l).
Proof. intros Hl. by rewrite lookup_alloc. Qed.


(** The overrides of [createWebpackConfig] touch four names only. *)
Lemma flag_merged version build testing prefs (base : gmap string value) k :
  k <> "BUNDLE_VERSION" -> k <> "BUNDLE_BUILD" ->
  k <> "TESTING" -> k <> "DEFAULT_PREFERENCES" ->
  flag
    (literal
       [ ("BUNDLE_VERSION", version); ("BUNDLE_BUILD", build);
         ("TESTING", testing); ("DEFAULT_PREFERENCES", prefs) ] ∪ base) k
  = flag base k.
Proof. idtac.
  intros. unfold flag, literal. cbn [fold_left fst snd].
  rewrite lookup_union, !lookup_insert_ne, lookup_empty by done.
  by rewrite (left_id None _).
Qed.


(** The alias table depends on four flags only. *)
Lemma aliasTable_ext (d d' : gmap string value) :
  flag d "CHROME" = flag d' "CHROME" ->
  flag d "GENERIC" = flag d' "GENERIC" ->
  flag d "MOZCENTRAL" = flag d' "MOZCENTRAL" ->
  flag d "GECKOVIEW" = flag d' "GECKOVIEW" ->
  aliasTable d = aliasTable d'.
Proof. idtac.
  intros Hc Hg Hm Hv. unfold aliasTable, viewerAlias, libraryAlias.
  by rewrite Hc, Hg, Hm, Hv.
Qed.

Lemma aliasTable_dom (d : gmap string value) : dom (aliasTable d) = slot_names.
Proof.
  unfold aliasTable, viewerAlias, libraryAlias.
  destruct (truthy (flag d "CHROME")); [decide_by_computation|].
  destruct (truthy (flag d "GENERIC")); [decide_by_computation|].
  destruct (truthy (flag d "MOZCENTRAL")); [|decide_by_computation].
  destruct (truthy (flag d "GECKOVIEW")); decide_by_computation.
Qed.

Lemma aliasTable_fallback (d : gmap string value) :
  truthy (flag d "CHROME") = false ->
  truthy (flag d "GENERIC") = false ->
  truthy (flag d "MOZCENTRAL") = false ->
  aliasTable d = viewerAlias0 ∪ libraryAlias0 ∪ basicAlias.
Proof. idtac.
  intros Hc Hg Hm. unfold aliasTable, viewerAlias, libraryAlias.
  by rewrite Hc, Hg, Hm.
Qed.


Lemma testing_value_explicit t e : nullish t = false -> testing_value t e = t.
Proof. unfold testing_value. by intros ->. Qed.

Section Configuration.
Context `{Platform}.

(** A returning [createWebpackConfig], seen from its caller: the merged
    flag set is the caller's flag set overridden at four names, and the
    alias table was chosen by the caller's target flags. *)
Lemma createWebpackConfig_defines defines out opts w cfg w' :
  is_Some (heap w !! out) ->
  createWebpackConfig defines out opts w = (Ok cfg, w') ->
  exists base version build prefs,
    heap w !! defines = Some base
    /\ heap w' !! loader_defines cfg
       = Some (JsObj
           (literal
              [ ("BUNDLE_VERSION", version); ("BUNDLE_BUILD", build);
                ("TESTING", testing_value (flag (props base) "TESTING") (env w));
                ("DEFAULT_PREFERENCES", prefs) ] ∪ props base) false)
    /\ resolve_alias cfg = path_join dirname <$> aliasTable (props base).
Proof.
  intros Hout E.
  apply createWebpackConfig_ok in E
    as (base & version & build & prefs & descriptor & Hb & Hd & Hfr & Hh & Ho & Hl & Ha).
  cbv zeta in *. exists base, version, build, prefs.
  split; [done|]. split.
  - rewrite Hh, Hl. rewrite lookup_insert_ne.
    + by rewrite lookup_insert_eq.
    + intros E. eapply fresh_not_allocated; [|symmetry; exact E].
      by apply is_Some_alloc.
  - rewrite Ha. f_equal. apply aliasTable_ext; by apply flag_merged.
Qed.



(** C3, as amended.  For every flag set handed to a returning
    [createWebpackConfig], the alias table has an entry for each of the
    twenty-three slot names, and each entry is the directory of the script
    joined with the relative path chosen for the slot.  When none of
    [CHROME], [GENERIC], [MOZCENTRAL] is set, the six [display-] slots fall
    back to the inert [src/display/stubs.js], while the viewer slots keep
    their default [web/] modules and [web-com] and [web-print_service] keep
    the empty relative path. *)
Theorem alias_table_total
    (defines out : positive) (opts : options) (w : world)
    (cfg : webpackConfig) (w' : world) :
  is_Some (heap w !! out) ->
  createWebpackConfig defines out opts w = (Ok cfg, w') ->
  exists base,
    heap w !! defines = Some base
    /\ resolve_alias cfg = path_join dirname <$> aliasTable (props base)
    /\ dom (resolve_alias cfg) = slot_names
    /\ (truthy (flag (props base) "CHROME") = false ->
        truthy (flag (props base) "GENERIC") = false ->
        truthy (flag (props base) "MOZCENTRAL") = false ->
        aliasTable (props base) = viewerAlias0 ∪ libraryAlias0 ∪ basicAlias
        /\ (forall slot,
              slot ∈ dom libraryAlias0 ->
              resolve_alias cfg !! slot
              = Some (path_join dirname "src/display/stubs.js"))
        /\ (forall slot rel,
              viewerAlias0 !! slot = Some rel ->
              resolve_alias cfg !! slot = Some (path_join dirname rel))
        /\ viewerAlias0 !! "web-com" = Some ""
        /\ viewerAlias0 !! "web-print_service" = Some "").
Proof.
  intros Hout E.
  apply createWebpackConfig_defines in E
    as (base & version & build & prefs & Hb & _ & Ha); [|done].
  exists base. split; [done|]. split; [done|]. split.
  - rewrite Ha, dom_fmap_L. apply aliasTable_dom.
  - intros Hc Hg Hm. pose proof (aliasTable_fallback _ Hc Hg Hm) as Ht.
    split; [done|]. rewrite Ha, Ht. split; [|split; [|split]].
    + intros slot Hs. rewrite lookup_fmap.
      apply elem_of_dom in Hs as [rel Hrel].
      assert (rel = "src/display/stubs.js") as ->.
      { revert Hrel. unfold libraryAlias0. cbn [list_to_map foldr uncurry fst snd].
        repeat (rewrite lookup_insert; case_decide; [by intros [= <-]|]).
        by rewrite lookup_empty. }
      rewrite !lookup_union.
      assert (viewerAlias0 !! slot = None) as ->.
      { revert Hrel. unfold viewerAlias0, libraryAlias0.
        cbn [list_to_map foldr uncurry fst snd].
        repeat (rewrite lookup_insert; case_decide;
                [subst slot; intros _; decide_by_computation|]).
        by rewrite lookup_empty. }
      rewrite Hrel. by destruct (basicAlias !! slot).
    + intros slot rel Hrel. rewrite lookup_fmap, !lookup_union, Hrel.
      by destruct (libraryAlias0 !! slot), (basicAlias !! slot).
    + decide_by_computation.
    + decide_by_computation.
Qed.

(** C4.  When the base flag set is merged with [{GENERIC: true, TESTING:
    true}] and handed to [createWebpackConfig], the alias table selects the
    fetch-based network modules, the web localisation module, the generic
    platform integration and the print service; none of the five is a stub
    or an implementation written for an extension. *)
Theorem generic_testing_aliases
    (DEFINES out : positive) (opts : options) (w : world)
    (cfg : webpackConfig) (w' : world) :
  heap w !! DEFINES = Some DEFINES_object ->
  is_Some (heap w !! out) ->
  bind (new_object [("GENERIC", VBool true); ("TESTING", VBool true)])
    (fun overrides =>
       bind (builder_merge DEFINES overrides)
         (fun defines => createWebpackConfig defines out opts)) w
  = (Ok cfg, w') ->
  let table :=
    aliasTable
      (literal [("GENERIC", VBool true); ("TESTING", VBool true)]
       ∪ props DEFINES_object) in
  resolve_alias cfg = path_join dirname <$> table
  /\ table !! "display-fetch_stream" = Some "src/display/fetch_stream.js"
  /\ table !! "display-network" = Some "src/display/network.js"
  /\ table !! "display-l10n_utils" = Some "web/l10n_utils.js"
  /\ table !! "web-com" = Some "web/genericcom.js"
  /\ table !! "web-print_service" = Some "web/pdf_print_service.js"
  /\ Forall
       (fun slot =>
          exists rel,
            table !! slot = Some rel
            /\ is_stub rel = false
            /\ extension_specific rel = false
            /\ resolve_alias cfg !! slot = Some (path_join dirname rel))
       [ "display-fetch_stream"; "display-network"; "display-l10n_utils";
         "web-com"; "web-print_service" ].
Proof.
  intros HD Hout E table.
  apply bind_ok in E as (l1 & w1 & (-> & ->)%new_object_ok & E).
  apply bind_ok in E as (l2 & w2 & (b & o & Hb & Ho & -> & ->)%builder_merge_ok & E).
  cbn [heap files env trace] in *.
  rewrite lookup_insert_eq in Ho. injection Ho as <-.
  rewrite lookup_alloc in Hb by (by rewrite HD). rewrite HD in Hb. injection Hb as <-.
  apply createWebpackConfig_defines in E
    as (base & version & build & prefs & Hbase & _ & Ha);
    [|cbn [heap]; by repeat apply is_Some_alloc].
  cbn [heap] in Hbase. rewrite lookup_insert_eq in Hbase. injection Hbase as <-.
  change (resolve_alias cfg = path_join dirname <$> table) in Ha.
  assert (H1 : table !! "display-fetch_stream" = Some "src/display/fetch_stream.js")
    by decide_by_computation.
  assert (H2 : table !! "display-network" = Some "src/display/network.js")
    by decide_by_computation.
  assert (H3 : table !! "display-l10n_utils" = Some "web/l10n_utils.js")
    by decide_by_computation.
  assert (H4 : table !! "web-com" = Some "web/genericcom.js")
    by decide_by_computation.
  assert (H5 : table !! "web-print_service" = Some "web/pdf_print_service.js")
    by decide_by_computation.
  repeat (split; [assumption|]).
  repeat (apply List.Forall_cons;
          [eexists; split; [eassumption|];
           split; [reflexivity|]; split; [reflexivity|];
           rewrite Ha, lookup_fmap;
           first [by rewrite H1|by rewrite H2|by rewrite H3|by rewrite H4|by rewrite H5]|]).
  apply List.Forall_nil.
Qed.

End Configuration.

(** * Examples on the concrete platform *)

(** C3, counterexample.  With the base flag set (no target flag set) the
    call returns, and the viewer slots are not stubs: [web-toolbar] is the
    regular toolbar and [web-com] is the directory of the script itself;
    only the [display-] slots are stubs. *)
Lemma fallback_slots_not_all_stubs :
  truthy (flag (props DEFINES_object) "CHROME") = false
  /\ truthy (flag (props DEFINES_object) "GENERIC") = false
  /\ truthy (flag (props DEFINES_object) "MOZCENTRAL") = false
  /\ aliasTable (props DEFINES_object) !! "web-toolbar" = Some "web/toolbar.js"
  /\ is_stub "web/toolbar.js" = false
  /\ aliasTable (props DEFINES_object) !! "web-com" = Some ""
  /\ is_stub "" = false
  /\ match
       @createWebpackConfig quiet_platform 1 2 (Options true false false None)
         configurable_world
     with
     | (Ok cfg, _) =>
         resolve_alias cfg !! "web-toolbar" = Some "/repo/web/toolbar.js"
         /\ resolve_alias cfg !! "web-com" = Some "/repo"
         /\ resolve_alias cfg !! "display-svg" = Some "/repo/src/display/stubs.js"
     | (Throw _, _) => False
     end.
Proof.
  repeat (split; [decide_by_computation|]).
  vm_compute. repeat split.
Qed.

Lemma configurable_world_returns :
  exists cfg w',
    @createWebpackConfig quiet_platform 1 2 (Options true false false None)
      configurable_world = (Ok cfg, w').
Proof. returns_by_computation. Defined.

Lemma configurable_world_objects :
  heap configurable_world !! 1%positive = Some DEFINES_object
  /\ is_Some (heap configurable_world !! 2%positive).
Proof.
  unfold configurable_world, world_of, loaded_heap. cbn [heap]. split.
  - rewrite lookup_insert_ne by done. apply lookup_singleton_eq.
  - rewrite lookup_insert_eq. by eexists.
Defined.

Lemma alias_table_total_witness :
  exists cfg w',
    is_Some (heap configurable_world !! 2%positive)
    /\ @createWebpackConfig quiet_platform 1 2 (Options true false false None)
         configurable_world = (Ok cfg, w')
    /\ exists base,
         heap configurable_world !! 1%positive = Some base
         /\ resolve_alias cfg = path_join "/repo" <$> aliasTable (props base)
         /\ dom (resolve_alias cfg) = slot_names.
Proof.
  destruct configurable_world_returns as (cfg & w' & E).
  destruct configurable_world_objects as [_ Hout].
  exists cfg, w'. split; [exact Hout|]. split; [exact E|].
  destruct (alias_table_total (H := quiet_platform) 1 2 _ _ cfg w' Hout E)
    as (base & Hb & Ha & Hd & _).
  exists base. repeat split; assumption.
Defined.


Lemma generic_world_returns :
  exists cfg w',
    bind (new_object [("GENERIC", VBool true); ("TESTING", VBool true)])
      (fun overrides =>
         bind (builder_merge 1 overrides)
           (fun defines =>
              @createWebpackConfig quiet_platform defines 2
                (Options true false false None))) configurable_world
    = (Ok cfg, w').
Proof. returns_by_computation. Defined.

Lemma generic_testing_aliases_witness :
  exists cfg w',
    heap configurable_world !! 1%positive = Some DEFINES_object
    /\ is_Some (heap configurable_world !! 2%positive)
    /\ bind (new_object [("GENERIC", VBool true); ("TESTING", VBool true)])
         (fun overrides =>
            bind (builder_merge 1 overrides)
              (fun defines =>
                 @createWebpackConfig quiet_platform defines 2
                   (Options true false false None))) configurable_world
       = (Ok cfg, w')
    /\ resolve_alias cfg !! "web-com" = Some (path_join "/repo" "web/genericcom.js").
Proof.
  destruct configurable_world_objects as [HD Hout].
  destruct generic_world_returns as (cfg & w' & E).
  exists cfg, w'. split; [exact HD|]. split; [exact Hout|]. split; [exact E|].
  destruct (generic_testing_aliases (H := quiet_platform) 1 2 _ _ cfg w' HD Hout E)
    as (Ha & _ & _ & _ & H4 & _).
  rewrite Ha, lookup_fmap, H4. reflexivity.
Defined.



(** * Default preferences and versioning *)

Section Preferences.
Context `{Platform}.

Lemma getVersionJSON_ok w v w' :
  getVersionJSON w = (Ok v, w') ->
  heap w' = heap w /\ files w' = files w /\ env w' = env w.
Proof.
  unfold getVersionJSON.
  intros (s & w0 & (_ & ->)%readFileSync_ok & (_ & ->)%lift_ok)%bind_ok. done.
Qed.

(** C8.  [parseDefaultPreferences] throws when the generated module
    yields no preference at all, and writes nothing; [getDefaultPreferences]
    throws when [default_preferences.json] is absent, and then a
    [createWebpackConfig] that was asked for these preferences never returns
    a configuration. *)
Theorem missing_preferences_abort (dir : string) (w : world) :
  (import_preferences
     ("./" +:+ DEFAULT_PREFERENCES_DIR +:+ dir +:+ "app_options.mjs") (files w)
   = Ok [] ->
   exists w',
     parseDefaultPreferences dir w
     = (Throw (Error "No default preferences found."), w')
     /\ files w' = files w)
  /\ (files w !! resolve (DEFAULT_PREFERENCES_DIR +:+ dir +:+ "default_preferences.json")
     = None ->
     getDefaultPreferences dir w
     = (Throw (ENOENT "open"
                 (DEFAULT_PREFERENCES_DIR +:+ dir +:+ "default_preferences.json")), w)
     /\ (dir <> "" ->
         forall defines out opts cfg w',
           defaultPreferencesDir opts = Some dir ->
           createWebpackConfig defines out opts w <> (Ok cfg, w'))).
Proof.
  split.
  - intros Himp. eexists. split.
    + unfold parseDefaultPreferences, bind, console_log, emit, ask, lift, throw.
      cbn [files]. rewrite Himp. cbn [length bool_decide decide_rel]. reflexivity.
    + reflexivity.
  - intros Habs. split.
    + unfold getDefaultPreferences, readFileSync, bind, ask, throw. cbn.
      by rewrite Habs.
    + intros Hdir defines out opts cfg w' Ho E.
      unfold createWebpackConfig in E.
      apply bind_ok in E as (versionInfo & w1 & Hv & E).
      assert (Hf1 : files w1 = files w).
      { destruct (negb _); [by apply getVersionJSON_ok in Hv as (_ & ? & _)|].
        by injection Hv as _ <-. }
      apply bind_ok in E as (version & w2 & ->%member_ok & E).
      apply bind_ok in E as (build & w2 & ->%member_ok & E).
      apply bind_ok in E as (testing & w2 & (base & _ & _ & ->)%testingDefine_ok & E).
      apply bind_ok in E as (prefs & w2 & Hp & _).
      rewrite Ho in Hp. rewrite bool_decide_eq_false_2 in Hp by done.
      unfold getDefaultPreferences in Hp.
      apply bind_ok in Hp as (s & w0 & (Hs & _)%readFileSync_ok & _).
      rewrite Hf1 in Hs. congruence.
Qed.

End Preferences.

Lemma missing_preferences_abort_witness :
  let w := configurable_world in
  @import_preferences quiet_platform
     ("./" +:+ DEFAULT_PREFERENCES_DIR +:+ "generic/" +:+ "app_options.mjs") (files w)
   = Ok []
  /\ files w !! resolve (DEFAULT_PREFERENCES_DIR +:+ "generic/" +:+ "default_preferences.json")
     = None
  /\ (exists w',
        @parseDefaultPreferences quiet_platform "generic/" w
        = (Throw (Error "No default preferences found."), w'))
  /\ @getDefaultPreferences quiet_platform "generic/" w
     = (Throw (ENOENT "open"
                 (DEFAULT_PREFERENCES_DIR +:+ "generic/" +:+ "default_preferences.json")), w).
Proof.
  intros w.
  assert (H1 : @import_preferences quiet_platform
     ("./" +:+ DEFAULT_PREFERENCES_DIR +:+ "generic/" +:+ "app_options.mjs") (files w)
   = Ok []) by reflexivity.
  assert (H2 : files w !! resolve (DEFAULT_PREFERENCES_DIR +:+ "generic/" +:+ "default_preferences.json")
     = None) by decide_by_computation.
  destruct (missing_preferences_abort (H := quiet_platform) "generic/" w) as [P1 P2].
  split; [exact H1|]. split; [exact H2|]. split.
  - destruct (P1 H1) as (w' & Hw' & _). by exists w'.
  - exact (proj1 (P2 H2)).
Defined.

(** * Versioning *)

Lemma version_key_dest :
  resolve (BUILD_DIR +:+ "/" +:+ "version.json") = version_key.
Proof. decide_by_computation. Qed.

Section Versioning.
Context `{Platform}.

(** C7, as amended.  A failing commit-count query is tolerated with a
    logged warning: the build number is 0 and the version is the prefix
    followed by 0.  A failing short-hash query is tolerated silently: the
    commit hash is empty and nothing is logged about it.  In both cases
    [version.json] is written and the build goes on. *)
Theorem version_queries_tolerated (done : M unit) (w : world) :
  let count := exec count_command in
  let hash := exec hash_command in
  let commit :=
    match exec_err hash with
    | None => replace_first (String newline "") "" (exec_stdout hash)
    | Some _ => ""
    end in
  (is_Some (exec_err count) ->
   createBuildNumber done w
   = done
       (World (heap w)
          (<[version_key := version_descriptor (versionPrefix config +:+ "0") 0 commit]>
             (files w))
          (env w)
          (trace w ++
             [ EvLog ""; EvLog "### Getting extension build number";
               EvExec count_command;
               EvLog "This is not a Git repository; using default build number.";
               EvLog "Extension build number: 0";
               EvExec hash_command;
               EvWrite version_key ])))
  /\ (is_Some (exec_err hash) ->
      exec_err count = None ->
      exec_stdout count = "" \/ count_char newline (exec_stdout count) <> 0 ->
      let n := count_char newline (exec_stdout count) in
      createBuildNumber done w
      = done
          (World (heap w)
             (<[version_key := version_descriptor (versionPrefix config +:+ pretty n) n ""]>
                (files w))
             (env w)
             (trace w ++
                [ EvLog ""; EvLog "### Getting extension build number";
                  EvExec count_command;
                  EvLog ("Extension build number: " +:+ pretty n);
                  EvExec hash_command;
                  EvWrite version_key ]))).
Proof.
  intros count hash commit. split.
  - intros [e He].
    unfold createBuildNumber, run, run_source, run_stages, run_stage, pipe,
      createStringSource, gulp_dest, writeFileSync, console_log, bind, emit, ask,
      set_files, ret.
    cbn [origin stages app relative contents heap files env trace].
    fold count_command hash_command. fold count hash. rewrite He.
    unfold bind, emit, ret. cbn [heap files env trace].
    rewrite version_key_dest. f_equal. f_equal.
    by rewrite <- !app_assoc.
  - intros [e He] Hc Hout n.
    unfold createBuildNumber, run, run_source, run_stages, run_stage, pipe,
      createStringSource, gulp_dest, writeFileSync, console_log, bind, emit, ask,
      set_files, ret.
    cbn [origin stages app relative contents heap files env trace].
    fold count_command hash_command. fold count hash. rewrite He, Hc.
    subst n. unfold throw.
    destruct (bool_decide (exec_stdout count = "")) eqn:Hs.
    + apply bool_decide_eq_true in Hs. rewrite Hs.
      cbn [count_char heap files env trace].
      rewrite version_key_dest. f_equal. f_equal.
      by rewrite <- !app_assoc.
    + apply bool_decide_eq_false in Hs.
      destruct (count_char newline (exec_stdout count)) as [|n'] eqn:Hcnt.
      * by destruct Hout.
      * cbn [heap files env trace].
        rewrite version_key_dest. f_equal. f_equal.
        by rewrite <- !app_assoc.
Qed.

End Versioning.

(** C7, counterexample.  The commit-count query answers with two commits
    and the short-hash query fails: the descriptor written has build number
    2 and version [4.0.2], not the default, and the trace holds no warning. *)
Lemma hash_failure_is_silent :
  is_Some (exec_err (@exec hashless_platform hash_command))
  /\ match @createBuildNumber hashless_platform (ret tt) empty_world with
     | (Ok _, w') =>
         files w' !! version_key
         = Some (show_value
                   (VObj [ ("version", VStr "4.0.2"); ("build", VNum 2);
                           ("commit", VStr "") ]))
         /\ trace w'
            = [ EvLog ""; EvLog "### Getting extension build number";
                EvExec (@count_command hashless_platform);
                EvLog "Extension build number: 2";
                EvExec hash_command;
                EvWrite version_key ]
     | (Throw _, _) => False
     end.
Proof.
  split; [by eexists|]. vm_compute. split; reflexivity.
Qed.

Lemma version_queries_tolerated_witness :
  (is_Some (exec_err (@exec gitless_platform (@count_command gitless_platform)))
   /\ exists w',
        @createBuildNumber gitless_platform (ret tt) empty_world = (Ok tt, w')
        /\ files w' !! version_key
           = Some (@version_descriptor gitless_platform "4.0.0" 0 ""))
  /\ (is_Some (exec_err (@exec hashless_platform hash_command))
      /\ exec_err (@exec hashless_platform (@count_command hashless_platform)) = None
      /\ count_char newline
           (exec_stdout (@exec hashless_platform (@count_command hashless_platform)))
         <> 0
      /\ exists w',
           @createBuildNumber hashless_platform (ret tt) empty_world = (Ok tt, w')
           /\ files w' !! version_key
              = Some (@version_descriptor hashless_platform "4.0.2" 2 "")).
Proof.
  split.
  - assert (H1 : is_Some (exec_err (@exec gitless_platform (@count_command gitless_platform))))
      by (by eexists).
    split; [exact H1|].
    rewrite (proj1 (version_queries_tolerated (H := gitless_platform) (ret tt) empty_world) H1).
    eexists. split; [reflexivity|]. cbn [files]. by rewrite lookup_insert_eq.
  - assert (H1 : is_Some (exec_err (@exec hashless_platform hash_command)))
      by (by eexists).
    assert (H2 : exec_err (@exec hashless_platform (@count_command hashless_platform)) = None)
      by reflexivity.
    assert (H3 : count_char newline
           (exec_stdout (@exec hashless_platform (@count_command hashless_platform)))
         <> 0) by (vm_compute; lia).
    split; [exact H1|]. split; [exact H2|]. split; [exact H3|].
    rewrite (proj2 (version_queries_tolerated (H := hashless_platform) (ret tt) empty_world)
               H1 H2 (or_intror H3)).
    eexists. split; [reflexivity|]. cbn [files]. by rewrite lookup_insert_eq.
Defined.

(** * The two-phase sandbox build *)

Lemma scripting_key_dest :
  resolve (TMP_DIR +:+ "/" +:+ "pdf.scripting.js") = scripting_key.
Proof. decide_by_computation. Qed.

Lemma frame_reads_only out w w' : frame out w w' -> reads_only w w'.
Proof. intros (Hf & _ & Ht & _). by split. Qed.

Lemma reads_only_trans w1 w2 w3 :
  reads_only w1 w2 -> reads_only w2 w3 -> reads_only w1 w3.
Proof.
  intros [Hf1 (t1 & Ht1 & Hr1)] [Hf2 (t2 & Ht2 & Hr2)]. split; [congruence|].
  exists (t1 ++ t2). split; [by rewrite Ht2, Ht1, app_assoc|by apply Forall_app].
Qed.

Lemma count_reads f tr :
  (forall e, is_read e = true -> f e = false) ->
  Forall (fun e => is_read e = true) tr -> count_events f tr = 0.
Proof.
  intros Hf. induction 1 as [|e tr He _ IH]; [done|].
  cbn [count_events]. by rewrite (Hf e He), IH.
Qed.

Section Sandbox.
Context `{Platform}.

Lemma assembleSandbox_reads_only d eo w r w' :
  assembleSandbox d eo w = (r, w') -> reads_only w w'.
Proof.
  unfold assembleSandbox, bind.
  destruct (new_object _ w) as [[out|e] w1] eqn:E1;
    apply quiet_new_object with (out := None) in E1; apply frame_reads_only in E1.
  - destruct (createWebpackConfig d out _ w1) as [[cfg|e] w2] eqn:E2;
      apply quiet_createWebpackConfig, frame_reads_only in E2;
      intros [= _ <-]; by eapply reads_only_trans.
  - by intros [= _ <-].
Qed.

(** The first phase leaves the bundle it built at the temporary path. *)
Lemma temporary_scripting_written d eo w0 f w :
  bind (createTemporaryScriptingBundle d eo) run w0 = (Ok f, w) ->
  files w !! scripting_key = Some (contents f).
Proof.
  intros (s & w1 & Hs & Hrun)%bind_ok.
  unfold createTemporaryScriptingBundle in Hs.
  apply bind_ok in Hs as (s0 & w2 & Hs0 & (-> & ->)%ret_ok).
  unfold createScriptingBundle in Hs0.
  apply bind_ok in Hs0 as (out & w3 & (_ & ->)%new_object_ok & Hs0).
  apply bind_ok in Hs0 as (cfg & w4 & Hc & (-> & ->)%ret_ok).
  apply createWebpackConfig_ok in Hc
    as (base & version & build & prefs & descriptor & _ & Hd & _ & Hh & Ho & _).
  cbv zeta in Hd, Hh. cbn [heap] in Hd, Hh.
  rewrite lookup_alloc in Hd by (apply is_Some_alloc; by rewrite lookup_insert_eq).
  rewrite lookup_alloc in Hd by (by rewrite lookup_insert_eq).
  rewrite lookup_insert_eq in Hd. injection Hd as <-.
  unfold run, pipe, gulp_src, gulp_dest, webpack2Stream in Hrun.
  cbn [origin stages app run_source run_stages] in Hrun.
  apply bind_ok in Hrun as (f0 & w5 & Hsrc & Hrun).
  apply bind_ok in Hsrc as (c & w6 & (_ & ->)%readFileSync_ok & (-> & ->)%ret_ok).
  apply bind_ok in Hrun as (f1 & w6 & Hweb & Hrun).
  unfold run_stage in Hweb.
  apply bind_ok in Hweb as (h & w7 & [= <- <-] & Hweb).
  apply bind_ok in Hweb as (fs & w7 & [= <- <-] & Hweb).
  apply bind_ok in Hweb as (name & w7 & (ob & Hob & -> & ->)%get_prop_ok & Hweb).
  apply bind_ok in Hweb as (text & w7 & (_ & ->)%lift_ok & Hweb).
  apply bind_ok in Hweb as (u & w7 & ->%emit_ok & Hweb).
  cbn [heap] in Hob. rewrite Ho, Hh, lookup_insert_eq in Hob. injection Hob as <-.
  cbn [props] in Hweb.
  assert (Hname :
    default VUndefined
      (<["globalObject" := VStr "globalThis"]>
         (literal (umd_output "pdf.scripting.js" "pdfjs-dist/build/pdf.scripting"))
       !! "filename") = VStr "pdf.scripting.js").
  { rewrite lookup_insert_ne by done. unfold literal, umd_output.
    cbn [fold_left fst snd]. rewrite !lookup_insert_ne by done.
    by rewrite lookup_insert_eq. }
  rewrite Hname in Hweb. apply ret_ok in Hweb as [-> ->].
  apply bind_ok in Hrun as (f2 & w8 & (-> & ->)%ret_ok & Hrun).
  apply bind_ok in Hrun as (f3 & w8 & (-> & ->)%ret_ok & Hrun).
  apply bind_ok in Hrun as (f4 & w8 & (-> & ->)%ret_ok & Hrun).
  apply bind_ok in Hrun as (f5 & w8 & Hdest & (-> & ->)%ret_ok).
  apply bind_ok in Hdest as (u' & w9 & ->%writeFileSync_ok & (-> & ->)%ret_ok).
  cbn [files relative contents]. rewrite scripting_key_dest.
  by rewrite lookup_insert_eq.
Qed.

(** The second phase up to the deletion of the temporary file. *)
Lemma createSandboxBundle_present defines eo w c base :
  files w !! scripting_key = Some c ->
  heap w !! defines = Some base ->
  let l1 := fresh (dom (heap w)) in
  let h1 := <[l1 := JsObj (literal [("PDF_SCRIPTING_JS_SOURCE", VStr c)]) false]> (heap w) in
  let l2 := fresh (dom h1) in
  let h2 :=
    <[l2 := JsObj (literal [("PDF_SCRIPTING_JS_SOURCE", VStr c)] ∪ props base) false]> h1 in
  createSandboxBundle defines eo w
  = assembleSandbox l2 eo
      (World h2 (delete scripting_key (files w)) (env w)
         (trace w ++ [EvRead scripting_key; EvUnlink scripting_key])).
Proof.
  intros Hc Hb. cbv zeta.
  unfold createSandboxBundle, assembleSandbox.
  unfold readFileSync at 1, unlinkSync, new_object at 1, builder_merge.
  unfold bind at 1 2 3 4 5 6 7 8 9 10 11 12 13 14 15 16.
  unfold ask, emit, ret, set_heap, set_files, throw.
  cbn [heap files env trace]. fold scripting_key. rewrite Hc.
  cbn [heap files env trace].
  rewrite lookup_alloc by (by rewrite Hb). rewrite Hb, lookup_insert_eq.
  cbn [heap files env trace props]. rewrite Hc.
  cbn [heap files env trace]. rewrite <- app_assoc. reflexivity.
Qed.

Lemma createSandboxBundle_absent defines eo w :
  files w !! scripting_key = None ->
  createSandboxBundle defines eo w = (Throw (ENOENT "open" scriptingPath), w).
Proof.
  intros Hc. unfold createSandboxBundle, readFileSync, bind, ask, throw.
  cbn [files]. fold scripting_key. by rewrite Hc.
Qed.

(** C1.  After the first phase has run, the temporary scripting file is on
    disk with the bundle just built.  The second phase reads it, merges its
    text into the sandbox flag set under [PDF_SCRIPTING_JS_SOURCE], deletes
    it, and only then assembles the sandbox configuration: what remains to
    be run after the deletion is [assembleSandbox], which only reads files,
    so that the file is deleted exactly once and is gone when the
    configuration is assembled.  Started without the file, the second phase
    throws the missing-file error at once and leaves the world as it was. *)
Theorem sandbox_two_phase
    (d1 : positive) (eo1 : option options) (w0 : world) (f : vinyl) (w : world)
    (defines : positive) (eo : option options) :
  bind (createTemporaryScriptingBundle d1 eo1) run w0 = (Ok f, w) ->
  is_Some (heap w !! defines) ->
  files w !! scripting_key = Some (contents f)
  /\ (exists w2 sandboxDefines sd,
        createSandboxBundle defines eo w = assembleSandbox sandboxDefines eo w2
        /\ files w2 = delete scripting_key (files w)
        /\ trace w2 = trace w ++ [EvRead scripting_key; EvUnlink scripting_key]
        /\ heap w2 !! sandboxDefines = Some sd
        /\ props sd !! "PDF_SCRIPTING_JS_SOURCE" = Some (VStr (contents f)))
  /\ (forall r w',
        createSandboxBundle defines eo w = (r, w') ->
        files w' !! scripting_key = None
        /\ exists added,
             trace w' = trace w ++ added
             /\ count_events (is_unlink_of scripting_key) added = 1)
  /\ (forall wbad,
        files wbad !! scripting_key = None ->
        createSandboxBundle defines eo wbad
        = (Throw (ENOENT "open" scriptingPath), wbad)).
Proof.
  intros Hphase1 [base Hb].
  pose proof (temporary_scripting_written _ _ _ _ _ Hphase1) as Hc.
  pose proof (createSandboxBundle_present defines eo w _ base Hc Hb) as Heq.
  cbv zeta in Heq.
  split; [exact Hc|]. split; [|split].
  - eexists _, _, _. split; [exact Heq|]. split; [reflexivity|].
    split; [reflexivity|]. cbn [heap]. split; [apply lookup_insert_eq|].
    cbn [props]. unfold literal. cbn [fold_left fst snd].
    rewrite lookup_union, lookup_insert_eq. by destruct (props base !! _).
  - intros r w' E. rewrite Heq in E.
    apply assembleSandbox_reads_only in E as [Hf (tr & Ht & Hr)].
    cbn [files trace] in Hf, Ht. split.
    + rewrite Hf. apply lookup_delete_eq.
    + exists ([EvRead scripting_key; EvUnlink scripting_key] ++ tr).
      split; [by rewrite Ht, <- app_assoc|].
      cbn [app count_events is_unlink_of].
      rewrite bool_decide_eq_true_2 by done.
      rewrite count_reads; [done| |done].
      by intros [].
  - intros wbad. apply createSandboxBundle_absent.
Qed.

End Sandbox.

Lemma sandbox_world_phase_one :
  exists f w,
    bind (@createTemporaryScriptingBundle quiet_platform 1 dev_options)
      (@run quiet_platform) sandbox_world = (Ok f, w).
Proof. returns_by_computation. Defined.

Lemma sandbox_two_phase_witness :
  exists f w,
    bind (@createTemporaryScriptingBundle quiet_platform 1 dev_options)
      (@run quiet_platform) sandbox_world = (Ok f, w)
    /\ is_Some (heap w !! 1%positive)
    /\ files w !! scripting_key = Some (contents f)
    /\ forall r w',
         @createSandboxBundle quiet_platform 1 dev_options w = (r, w') ->
         files w' !! scripting_key = None.
Proof.
  assert (Hheap :
    match bind (@createTemporaryScriptingBundle quiet_platform 1 dev_options)
            (@run quiet_platform) sandbox_world with
    | (_, w) => is_Some (heap w !! 1%positive)
    end) by (vm_compute; by eexists).
  destruct sandbox_world_phase_one as (f & w & E). rewrite E in Hheap.
  destruct (sandbox_two_phase (H := quiet_platform) 1 dev_options sandbox_world f w
              1 dev_options E Hheap) as (H1 & _ & H3 & _).
  exists f, w. split; [exact E|]. split; [exact Hheap|]. split; [exact H1|].
  intros r w' E2. exact (proj1 (H3 r w' E2)).
Defined.

(** * Resolved paths *)

Lemma prefix_slash c t :
  String.prefix "/" (String c t) = bool_decide (c = "/"%char).
Proof.
  cbn [String.prefix]. destruct (ascii_dec "/" c) as [<-|Hc].
  - by rewrite prefix_empty.
  - rewrite bool_decide_eq_false_2 by congruence. reflexivity.
Qed.

Lemma split_slash_app a b :
  split_from "/" 0 (a +:+ String "/" b) = split_from "/" 0 a ++ split_from "/" 0 b.
Proof.
  induction a as [|c a IH].
  - rewrite app_empty_l. cbn [split_from]. by rewrite prefix_slash.
  - rewrite app_cons. cbn [split_from]. rewrite !prefix_slash.
    case_bool_decide.
    + cbn [String.length Nat.sub]. by rewrite IH.
    + rewrite IH. destruct (split_from "/" 0 a) as [|ch rest] eqn:Ea.
      * by apply split_from_cons in Ea.
      * reflexivity.
Qed.

Lemma segments_app a b : segments (a +:+ String "/" b) = segments a ++ segments b.
Proof. unfold segments. rewrite split_slash_app, List.filter_app. reflexivity. Qed.

Lemma absolute_app a b :
  String.prefix "/" (a +:+ String "/" b) = String.prefix "/" (a +:+ "/").
Proof.
  destruct a as [|c a]; [by rewrite !app_empty_l, !prefix_slash|].
  by rewrite !app_cons, !prefix_slash.
Qed.

Lemma leaf_app a b :
  segments b <> [] -> leaf (resolve (a +:+ String "/" b)) = leaf (resolve b).
Proof.
  intros Hb. unfold leaf, resolve. cbn [snd]. rewrite segments_app.
  rewrite last_app. destruct (last (segments b)) eqn:E; [done|].
  apply last_None in E. done.
Qed.

Lemma leaf_ne p q : leaf (resolve p) <> leaf (resolve q) -> resolve p <> resolve q.
Proof. intros Hne E. apply Hne. by rewrite E. Qed.

(** Paths below a directory written with its trailing separator. *)
Lemma resolve_below d rel :
  resolve (d +:+ String "/" rel)
  = (String.prefix "/" (d +:+ "/"), segments d ++ segments rel).
Proof. unfold resolve. by rewrite absolute_app, segments_app. Qed.

Lemma below_ne (flag : bool) (base r1 r2 : list string) :
  r1 <> r2 -> (flag, base ++ r1) <> (flag, base ++ r2).
Proof. intros Hne [= E%app_inv_head]. done. Qed.

(** * Minification *)

Lemma bind_inv {A B} (m : M A) (k : A -> M B) w r w' :
  bind m k w = (r, w') ->
  (exists a w1, m w = (Ok a, w1) /\ k a w1 = (r, w'))
  \/ (exists e, m w = (Throw e, w') /\ r = Throw e).
Proof.
  unfold bind. destruct (m w) as [[a|e] w1]; [eauto|].
  intros [= <- <-]. eauto.
Qed.

Lemma readFileSync_throw p w e w' :
  readFileSync p w = (Throw e, w') ->
  files w !! resolve p = None /\ e = ENOENT "open" p /\ w' = w.
Proof.
  unfold readFileSync, bind, ask, emit, ret, throw. cbn [files].
  destruct (files w !! resolve p); intros E; [discriminate E|].
  by injection E as <- <-.
Qed.

Lemma emit_throw ev w e w' : emit ev w = (Throw e, w') -> False.
Proof. intros E. discriminate E. Qed.

Lemma writeFileSync_throw p c w e w' : writeFileSync p c w = (Throw e, w') -> False.
Proof. intros E. discriminate E. Qed.

Lemma emits_bind {A B} P (m : M A) (k : A -> M B) :
  emits P m -> (forall a, emits P (k a)) -> emits P (bind m k).
Proof.
  intros Hm Hk w r w' [(a & w1 & E1 & E2)|(e & E1 & _)]%bind_inv.
  - apply Hm in E1 as (t1 & Ht1 & Hp1). apply Hk in E2 as (t2 & Ht2 & Hp2).
    exists (t1 ++ t2). split; [by rewrite Ht2, Ht1, app_assoc|by apply Forall_app].
  - by apply Hm in E1.
Qed.

Lemma emits_emit P ev : P ev -> emits P (emit ev).
Proof.
  intros Hp w r w' [= _ <-]. exists [ev]. split; [done|by constructor].
Qed.

Lemma emits_unlinkSync P p : P (EvUnlink (resolve p)) -> emits P (unlinkSync p).
Proof.
  intros Hp w r w'. unfold unlinkSync, bind, ask, set_files, emit, throw. cbn [files].
  destruct (files w !! resolve p); intros [= _ <-]; cbn [trace].
  - exists [EvUnlink (resolve p)]. split; [done|by constructor].
  - exists []. by rewrite app_nil_r.
Qed.

Lemma emits_renameSync P p q :
  P (EvRename (resolve p) (resolve q)) -> emits P (renameSync p q).
Proof.
  intros Hp w r w'. unfold renameSync, bind, ask, set_files, emit, throw. cbn [files].
  destruct (files w !! resolve p); intros [= _ <-]; cbn [trace].
  - exists [EvRename (resolve p) (resolve q)]. split; [done|by constructor].
  - exists []. by rewrite app_nil_r.
Qed.

Section MinifyRuns.
Context `{Platform}.

Lemma minified_ok input w c w' :
  minified input w = (Ok c, w') ->
  minify input = Ok c
  /\ w' = World (heap w) (files w) (env w) (trace w ++ [EvMinify input]).
Proof.
  unfold minified, bind, emit, lift. cbn. by intros [= -> <-].
Qed.

Lemma minified_throw input w e w' :
  minified input w = (Throw e, w') ->
  minify input = Throw e
  /\ w' = World (heap w) (files w) (env w) (trace w ++ [EvMinify input]).
Proof.
  unfold minified, bind, emit, lift. cbn. by intros [= -> <-].
Qed.

Lemma cleanPhase_emits dir :
  emits (fun e => is_minify e = false) (cleanPhase dir).
Proof.
  unfold cleanPhase, console_log.
  repeat (apply emits_bind; [|intros _]);
    solve [by apply emits_emit | by apply emits_unlinkSync | by apply emits_renameSync].
Qed.

End MinifyRuns.

Section Phases.
Context `{Platform}.

Ltac outputs_untouched :=
  let k := fresh "k" in
  let Hk := fresh "Hk" in
  intros k Hk; cbn [files]; unfold minified_outputs in Hk;
  repeat (apply Forall_cons_1 in Hk as [? Hk]);
  rewrite ?lookup_insert_ne by congruence; reflexivity.

Ltac earlier_minified :=
  let input := fresh "input" in
  let e0 := fresh "e0" in
  let Hin := fresh "Hin" in
  let Hthrow := fresh "Hthrow" in
  intros input e0 Hin Hthrow; cbn [app] in Hin;
  repeat (apply elem_of_cons in Hin as [Hin|Hin];
          [first [discriminate Hin | injection Hin as ->; congruence]|]);
  by apply elem_of_nil in Hin.

Ltac stop_here :=
  left; eexists _, _;
  split; [reflexivity|];
  split; [cbn [heap files env trace];
          first [rewrite <- ?app_assoc; reflexivity|symmetry; apply app_nil_r]|];
  split; [cbn [app]; repeat constructor|];
  split; [outputs_untouched|earlier_minified].

Ltac step_read H c Hc :=
  apply bind_inv in H
    as [(c & ? & [Hc ->]%readFileSync_ok & H)|(? & (? & -> & ->)%readFileSync_throw & ->)];
  [|stop_here].

Ltac step_log H :=
  apply bind_inv in H as [(? & ? & ->%emit_ok & H)|(? & []%emit_throw & _)].

Ltac step_minify H c Hc :=
  apply bind_inv in H
    as [(c & ? & [Hc ->]%minified_ok & H)|(? & [? ->]%minified_throw & ->)];
  [|stop_here].

Ltac step_write H :=
  apply bind_inv in H
    as [(? & ? & ->%writeFileSync_ok & H)|(? & []%writeFileSync_throw & _)].

Lemma minify_phase dir w r w' :
  parseMinified dir w = (r, w') ->
  stopped_minifying dir w r w'
  \/ (exists pdf worker sandbox img viewer c1 c2 c3 c4 c5,
        files w !! resolve (dir +:+ "/build/pdf.js") = Some pdf
        /\ files w !! resolve (dir +:+ "/build/pdf.worker.js") = Some worker
        /\ files w !! resolve (dir +:+ "/build/pdf.sandbox.js") = Some sandbox
        /\ files w !! resolve (dir +:+ "/image_decoders/pdf.image_decoders.js") = Some img
        /\ files w !! resolve (dir +:+ "/web/viewer.js") = Some viewer
        /\ minify (MinFiles [("pdf.js", pdf); ("viewer.js", viewer)]) = Ok c1
        /\ minify (MinCode pdf) = Ok c2
        /\ minify (MinCode worker) = Ok c3
        /\ minify (MinCode sandbox) = Ok c4
        /\ minify (MinCode img) = Ok c5
        /\ cleanPhase dir
             (World (heap w) (minified_files dir (files w) c1 c2 c3 c4 c5) (env w)
                (trace w ++ minify_trace dir pdf worker sandbox img viewer))
           = (r, w')).
Proof.
  unfold parseMinified, console_log. intros E.
  step_read E pdf Hpdf. cbn [heap files env trace] in *.
  step_read E worker Hworker. cbn [heap files env trace] in *.
  step_read E sandbox Hsandbox. cbn [heap files env trace] in *.
  step_read E img Himg. cbn [heap files env trace] in *.
  step_read E viewer Hviewer. cbn [heap files env trace] in *.
  step_log E. step_log E. cbn [heap files env trace] in *.
  step_minify E c1 Hc1. step_write E. cbn [heap files env trace] in *.
  step_minify E c2 Hc2. step_write E. cbn [heap files env trace] in *.
  step_minify E c3 Hc3. step_write E. cbn [heap files env trace] in *.
  step_minify E c4 Hc4. step_write E. cbn [heap files env trace] in *.
  step_minify E c5 Hc5. step_write E. cbn [heap files env trace] in *.
  right. exists pdf, worker, sandbox, img, viewer, c1, c2, c3, c4, c5.
  repeat (split; [assumption|]).
  rewrite <- !app_assoc in E. exact E.
Qed.

End Phases.

Lemma removal_after_prefix (tr1 tr2 pre post : list event) e :
  Forall (fun ev => is_removal ev = false) tr1 ->
  tr1 ++ tr2 = pre ++ e :: post ->
  is_removal e = true ->
  exists mid, pre = tr1 ++ mid.
Proof.
  intros Hno. revert pre. induction Hno as [|x tr1 Hx _ IH]; intros pre E He.
  - by exists pre.
  - destruct pre as [|y pre]; cbn [app] in E; injection E as -> E.
    + congruence.
    + destruct (IH pre E He) as [mid ->]. by exists mid.
Qed.

Lemma fifth_output dir :
  dir +:+ "image_decoders/pdf.image_decoders.min.js"
  = (dir +:+ "image_decoders") +:+ String "/" "pdf.image_decoders.min.js".
Proof. by rewrite app_assoc_string. Qed.

Ltac leaves_differ :=
  apply leaf_ne; rewrite ?fifth_output;
  rewrite !leaf_app by (vm_compute; intros E; discriminate E);
  vm_compute; intros E; discriminate E.

Lemma originals_not_outputs dir :
  Forall (fun p => Forall (fun o => resolve p <> resolve o) (minified_outputs dir))
    (originals dir).
Proof.
  unfold originals, minified_outputs.
  repeat (apply List.Forall_cons; [|try apply List.Forall_nil]);
    leaves_differ.
Qed.

Section Atomicity.
Context `{Platform}.

(** C6.  In a run of [parseMinified], whatever its outcome, every removal
    (a deletion or a rename over a file) comes after the writes of all five
    minified outputs.  If a call of the minifier made during the run
    failed, the run threw that error, no removal happened at all, and the
    six original files are on disk as they were. *)
Theorem minified_before_any_removal
    (dir : string) (w : world) (r : outcome unit) (w' : world) :
  parseMinified dir w = (r, w') ->
  exists added,
    trace w' = trace w ++ added
    /\ (forall pre e post,
          added = pre ++ e :: post ->
          is_removal e = true ->
          Forall (fun p => EvWrite (resolve p) ∈ pre) (minified_outputs dir))
    /\ (forall input e,
          EvMinify input ∈ added ->
          minify input = Throw e ->
          r = Throw e
          /\ Forall (fun ev => is_removal ev = false) added
          /\ Forall (fun p => files w' !! resolve p = files w !! resolve p)
               (originals dir)).
Proof.
  intros [(e & tr & -> & Ht & Hno & Hfs & Hmin)|Hdone]%minify_phase.
  - exists tr. split; [exact Ht|]. split.
    + intros pre ev post -> Hev.
      apply Forall_app in Hno as [_ Hno]. apply Forall_cons_1 in Hno as [Hno _].
      congruence.
    + intros input e0 Hin Hthrow. rewrite (Hmin input e0 Hin Hthrow).
      split; [reflexivity|]. split; [exact Hno|].
      eapply Forall_impl; [apply originals_not_outputs|].
      intros p Hp. cbv beta in *. by apply Hfs.
  - destruct Hdone
      as (pdf & worker & sandbox & img & viewer & c1 & c2 & c3 & c4 & c5
          & _ & _ & _ & _ & _ & H1 & H2 & H3 & H4 & H5 & Hclean).
    apply cleanPhase_emits in Hclean as (tr2 & Ht & Hno). cbn [trace] in Ht.
    exists (minify_trace dir pdf worker sandbox img viewer ++ tr2).
    split; [by rewrite Ht, app_assoc|]. split.
    + intros pre ev post E Hev.
      apply removal_after_prefix in E as [mid ->]; [|by repeat constructor|done].
      unfold minified_outputs, minify_trace.
      repeat (apply List.Forall_cons; [|try apply List.Forall_nil]);
        apply elem_of_app; left;
        repeat (first [by apply list_elem_of_here|apply list_elem_of_further]).
    + intros input e0 Hin Hthrow. exfalso.
      apply elem_of_app in Hin as [Hin|Hin].
      * unfold minify_trace in Hin.
        repeat (apply elem_of_cons in Hin as [Hin|Hin];
                [first [discriminate Hin | injection Hin as ->; congruence]|]).
        by apply elem_of_nil in Hin.
      * pose proof (proj1 (Forall_forall _ _) Hno _ Hin) as Hm. discriminate Hm.
Qed.

End Atomicity.

Lemma bind_Ok {A B} (m : M A) (k : A -> M B) w a w1 :
  m w = (Ok a, w1) -> bind m k w = k a w1.
Proof. unfold bind. by intros ->. Qed.

Lemma readFileSync_present p w c :
  files w !! resolve p = Some c ->
  readFileSync p w
  = (Ok c, World (heap w) (files w) (env w) (trace w ++ [EvRead (resolve p)])).
Proof.
  intros Hc. unfold readFileSync, bind, ask, emit, ret. cbn [files]. by rewrite Hc.
Qed.

Lemma unlinkSync_present p w c :
  files w !! resolve p = Some c ->
  unlinkSync p w
  = (Ok tt, World (heap w) (delete (resolve p) (files w)) (env w)
              (trace w ++ [EvUnlink (resolve p)])).
Proof.
  intros Hc. unfold unlinkSync, bind, ask, emit, set_files. cbn [files]. by rewrite Hc.
Qed.

Lemma renameSync_present p q w c :
  files w !! resolve p = Some c ->
  renameSync p q w
  = (Ok tt, World (heap w) (<[resolve q := c]> (delete (resolve p) (files w))) (env w)
              (trace w ++ [EvRename (resolve p) (resolve q)])).
Proof.
  intros Hc. unfold renameSync, bind, ask, emit, set_files. cbn [files]. by rewrite Hc.
Qed.

Lemma emit_run ev w :
  emit ev w = (Ok tt, World (heap w) (files w) (env w) (trace w ++ [ev])).
Proof. reflexivity. Qed.

Lemma writeFileSync_run p c w :
  writeFileSync p c w
  = (Ok tt, World (heap w) (<[resolve p := c]> (files w)) (env w)
              (trace w ++ [EvWrite (resolve p)])).
Proof. reflexivity. Qed.

Section RoundTrip.
Context `{Platform}.

Lemma minified_present input w c :
  minify input = Ok c ->
  minified input w
  = (Ok c, World (heap w) (files w) (env w) (trace w ++ [EvMinify input])).
Proof. intros Hc. unfold minified, bind, emit, lift. cbn. by rewrite Hc. Qed.

Ltac run_step lem :=
  erewrite bind_Ok by (apply lem; eassumption);
  cbv beta; cbn [heap files env trace].

Ltac run_log :=
  erewrite bind_Ok by apply emit_run; cbv beta; cbn [heap files env trace].

Ltac run_write :=
  erewrite bind_Ok by apply writeFileSync_run; cbv beta; cbn [heap files env trace].

Lemma parseMinified_runs dir w pdf worker sandbox img viewer c1 c2 c3 c4 c5 :
  files w !! resolve (dir +:+ "/build/pdf.js") = Some pdf ->
  files w !! resolve (dir +:+ "/build/pdf.worker.js") = Some worker ->
  files w !! resolve (dir +:+ "/build/pdf.sandbox.js") = Some sandbox ->
  files w !! resolve (dir +:+ "/image_decoders/pdf.image_decoders.js") = Some img ->
  files w !! resolve (dir +:+ "/web/viewer.js") = Some viewer ->
  minify (MinFiles [("pdf.js", pdf); ("viewer.js", viewer)]) = Ok c1 ->
  minify (MinCode pdf) = Ok c2 ->
  minify (MinCode worker) = Ok c3 ->
  minify (MinCode sandbox) = Ok c4 ->
  minify (MinCode img) = Ok c5 ->
  parseMinified dir w
  = cleanPhase dir
      (World (heap w) (minified_files dir (files w) c1 c2 c3 c4 c5) (env w)
         (trace w ++ minify_trace dir pdf worker sandbox img viewer)).
Proof.
  intros Hpdf Hworker Hsandbox Himg Hviewer H1 H2 H3 H4 H5.
  unfold parseMinified.
  do 5 run_step readFileSync_present.
  unfold console_log. do 2 run_log.
  run_step minified_present. run_write.
  run_step minified_present. run_write.
  run_step minified_present. run_write.
  run_step minified_present. run_write.
  run_step minified_present. run_write.
  cbn [heap files env trace].
  unfold minified_files, minify_trace. rewrite <- !app_assoc. reflexivity.
Qed.

Ltac find_file :=
  cbn [files]; unfold minified_files;
  repeat first
    [ rewrite lookup_delete_ne by leaves_differ
    | rewrite lookup_insert_ne by leaves_differ
    | rewrite lookup_insert_eq
    | rewrite lookup_delete_eq ];
  first [eassumption|reflexivity].

Ltac run_unlink :=
  erewrite bind_Ok by (eapply unlinkSync_present; find_file);
  cbv beta; cbn [heap files env trace].

Ltac run_rename :=
  erewrite bind_Ok by (eapply renameSync_present; find_file);
  cbv beta; cbn [heap files env trace].

Lemma cleanPhase_runs dir h fs e t pdf worker sandbox viewer debugger c1 c2 c3 c4 c5 :
  resolve (dir +:+ "/image_decoders/pdf.image_decoders.min.js")
  = resolve (dir +:+ "image_decoders/pdf.image_decoders.min.js") ->
  fs !! resolve (dir +:+ "/build/pdf.js") = Some pdf ->
  fs !! resolve (dir +:+ "/build/pdf.worker.js") = Some worker ->
  fs !! resolve (dir +:+ "/build/pdf.sandbox.js") = Some sandbox ->
  fs !! resolve (dir +:+ "/web/viewer.js") = Some viewer ->
  fs !! resolve (dir +:+ "/web/debugger.js") = Some debugger ->
  exists t',
    cleanPhase dir (World h (minified_files dir fs c1 c2 c3 c4 c5) e t)
    = (Ok tt,
       World h (cleaned_files dir (minified_files dir fs c1 c2 c3 c4 c5) c2 c3 c4 c5) e t').
Proof.
  intros Hsame Hpdf Hworker Hsandbox Hviewer Hdebugger.
  unfold cleanPhase, console_log. do 2 run_log.
  do 5 run_unlink. do 3 run_rename.
  erewrite renameSync_present by (rewrite Hsame; find_file).
  cbn [heap files env trace]. rewrite Hsame. eexists. reflexivity.
Qed.

Lemma trailing_separator d rel :
  resolve ((d +:+ "/") +:+ String "/" rel) = resolve ((d +:+ "/") +:+ rel).
Proof.
  rewrite resolve_below. rewrite (app_assoc_string d "/" rel).
  change ("/" +:+ rel) with (String "/" rel). rewrite resolve_below.
  f_equal.
  - rewrite (app_assoc_string d "/" "/"). apply absolute_app.
  - rewrite (segments_app d ""). by rewrite <- app_assoc.
Qed.

(** C5, as amended.  With a minifier that returns a single text unchanged,
    [parseMinified] on a directory written with its trailing separator
    returns, and afterwards the four bundles hold again what they held
    before, the [.min.js] temporaries are gone, [web/viewer.js] and
    [web/debugger.js] are deleted, [web/pdf.viewer.js] holds what the
    minifier made of the pair of the library and the viewer, and every other
    file is as it was. *)
Theorem identity_minifier_round_trip
    (d : string) (w : world)
    (pdf worker sandbox img viewer debugger combined : string) :
  let dir := d +:+ "/" in
  (forall code, minify (MinCode code) = Ok code) ->
  minify (MinFiles [("pdf.js", pdf); ("viewer.js", viewer)]) = Ok combined ->
  files w !! resolve (dir +:+ "/build/pdf.js") = Some pdf ->
  files w !! resolve (dir +:+ "/build/pdf.worker.js") = Some worker ->
  files w !! resolve (dir +:+ "/build/pdf.sandbox.js") = Some sandbox ->
  files w !! resolve (dir +:+ "/image_decoders/pdf.image_decoders.js") = Some img ->
  files w !! resolve (dir +:+ "/web/viewer.js") = Some viewer ->
  files w !! resolve (dir +:+ "/web/debugger.js") = Some debugger ->
  exists w',
    parseMinified dir w = (Ok tt, w')
    /\ files w' !! resolve (dir +:+ "/build/pdf.js") = Some pdf
    /\ files w' !! resolve (dir +:+ "/build/pdf.worker.js") = Some worker
    /\ files w' !! resolve (dir +:+ "/build/pdf.sandbox.js") = Some sandbox
    /\ files w' !! resolve (dir +:+ "/image_decoders/pdf.image_decoders.js") = Some img
    /\ files w' !! resolve (dir +:+ "/web/viewer.js") = None
    /\ files w' !! resolve (dir +:+ "/web/debugger.js") = None
    /\ files w' !! resolve (dir +:+ "/web/pdf.viewer.js") = Some combined
    /\ files w' !! resolve (dir +:+ "/build/pdf.min.js") = None
    /\ files w' !! resolve (dir +:+ "/build/pdf.worker.min.js") = None
    /\ files w' !! resolve (dir +:+ "/build/pdf.sandbox.min.js") = None
    /\ files w' !! resolve (dir +:+ "image_decoders/pdf.image_decoders.min.js") = None
    /\ (forall k,
          k ∉ resolve <$> (originals dir ++ minified_outputs dir) ->
          files w' !! k = files w !! k).
Proof.
  intros dir Hid Hcombined Hpdf Hworker Hsandbox Himg Hviewer Hdebugger.
  rewrite (parseMinified_runs dir w pdf worker sandbox img viewer
             combined pdf worker sandbox img) by auto.
  destruct (cleanPhase_runs dir (heap w) (files w) (env w)
              (trace w ++ minify_trace dir pdf worker sandbox img viewer)
              pdf worker sandbox viewer debugger combined pdf worker sandbox img)
    as [t' Hclean]; try assumption.
  { apply trailing_separator. }
  rewrite Hclean. eexists. split; [reflexivity|].
  cbn [files]. unfold cleaned_files.
  repeat (split; [find_file|]).
  intros k Hk. unfold originals, minified_outputs in Hk.
  cbn [app] in Hk. rewrite !fmap_cons in Hk.
  repeat (apply not_elem_of_cons in Hk as [? Hk]).
  unfold minified_files.
  repeat first [ rewrite lookup_insert_ne by congruence
               | rewrite lookup_delete_ne by congruence ].
  reflexivity.
Qed.

End RoundTrip.

(** * Examples on the concrete platform *)

(** C5, counterexample.  With the minifier that returns its input
    unchanged, [parseMinified] completes on an assembled tree and the tree
    is not what it was: [web/viewer.js] and [web/debugger.js] are gone and
    [web/pdf.viewer.js] is new. *)
Lemma identity_minifier_changes_tree :
  (forall code, @minify quiet_platform (MinCode code) = Ok code)
  /\ files minified_world !! resolve (MINIFIED_DIR +:+ "/web/viewer.js") = Some "viewer"
  /\ files minified_world !! resolve (MINIFIED_DIR +:+ "/web/pdf.viewer.js") = None
  /\ match @parseMinified quiet_platform MINIFIED_DIR minified_world with
     | (Ok _, w') =>
         files w' !! resolve (MINIFIED_DIR +:+ "/web/viewer.js") = None
         /\ files w' !! resolve (MINIFIED_DIR +:+ "/web/debugger.js") = None
         /\ files w' !! resolve (MINIFIED_DIR +:+ "/web/pdf.viewer.js") = Some "pdfviewer"
         /\ files w' <> files minified_world
     | (Throw _, _) => False
     end.
Proof.
  assert (Hbefore :
    files minified_world !! resolve (MINIFIED_DIR +:+ "/web/viewer.js") = Some "viewer")
    by decide_by_computation.
  split; [reflexivity|]. split; [exact Hbefore|]. split; [decide_by_computation|].
  assert (Hafter :
    match @parseMinified quiet_platform MINIFIED_DIR minified_world with
    | (Ok _, w') =>
        files w' !! resolve (MINIFIED_DIR +:+ "/web/viewer.js") = None
        /\ files w' !! resolve (MINIFIED_DIR +:+ "/web/debugger.js") = None
        /\ files w' !! resolve (MINIFIED_DIR +:+ "/web/pdf.viewer.js") = Some "pdfviewer"
    | (Throw _, _) => False
    end) by (vm_compute; repeat split).
  destruct (@parseMinified quiet_platform MINIFIED_DIR minified_world)
    as [[u|e] w']; [|exact Hafter].
  destruct Hafter as (Hv & Hd & Hp). repeat (split; [assumption|]).
  intros Heq. rewrite Heq in Hv. congruence.
Qed.

Lemma identity_minifier_round_trip_witness :
  let dir := "build/minified" +:+ "/" in
  (forall code, @minify quiet_platform (MinCode code) = Ok code)
  /\ @minify quiet_platform (MinFiles [("pdf.js", "pdf"); ("viewer.js", "viewer")])
     = Ok "pdfviewer"
  /\ files minified_world !! resolve (dir +:+ "/build/pdf.js") = Some "pdf"
  /\ files minified_world !! resolve (dir +:+ "/build/pdf.worker.js") = Some "worker"
  /\ files minified_world !! resolve (dir +:+ "/build/pdf.sandbox.js") = Some "sandbox"
  /\ files minified_world !! resolve (dir +:+ "/image_decoders/pdf.image_decoders.js")
     = Some "decoders"
  /\ files minified_world !! resolve (dir +:+ "/web/viewer.js") = Some "viewer"
  /\ files minified_world !! resolve (dir +:+ "/web/debugger.js") = Some "debugger"
  /\ exists w',
       @parseMinified quiet_platform dir minified_world = (Ok tt, w')
       /\ files w' !! resolve (dir +:+ "/build/pdf.js") = Some "pdf"
       /\ files w' !! resolve (dir +:+ "/web/viewer.js") = None.
Proof.
  intros dir.
  assert (H0 : forall code, @minify quiet_platform (MinCode code) = Ok code)
    by reflexivity.
  assert (H1 : @minify quiet_platform (MinFiles [("pdf.js", "pdf"); ("viewer.js", "viewer")])
               = Ok "pdfviewer") by reflexivity.
  assert (H2 : files minified_world !! resolve (dir +:+ "/build/pdf.js") = Some "pdf")
    by decide_by_computation.
  assert (H3 : files minified_world !! resolve (dir +:+ "/build/pdf.worker.js")
               = Some "worker") by decide_by_computation.
  assert (H4 : files minified_world !! resolve (dir +:+ "/build/pdf.sandbox.js")
               = Some "sandbox") by decide_by_computation.
  assert (H5 : files minified_world
                 !! resolve (dir +:+ "/image_decoders/pdf.image_decoders.js")
               = Some "decoders") by decide_by_computation.
  assert (H6 : files minified_world !! resolve (dir +:+ "/web/viewer.js") = Some "viewer")
    by decide_by_computation.
  assert (H7 : files minified_world !! resolve (dir +:+ "/web/debugger.js")
               = Some "debugger") by decide_by_computation.
  repeat (split; [assumption|]).
  destruct (identity_minifier_round_trip (H := quiet_platform) "build/minified"
              minified_world "pdf" "worker" "sandbox" "decoders" "viewer" "debugger"
              "pdfviewer" H0 H1 H2 H3 H4 H5 H6 H7)
    as (w' & Hrun & Hpdf & _ & _ & _ & Hviewer & _).
  exists w'. split; [exact Hrun|]. split; [exact Hpdf|exact Hviewer].
Defined.

Lemma minified_before_any_removal_witness :
  exists r w',
    @parseMinified picky_platform MINIFIED_DIR minified_world = (r, w')
    /\ @minify picky_platform (MinCode "worker") = Throw (ToolError "terser" "parse error")
    /\ r = Throw (ToolError "terser" "parse error")
    /\ Forall (fun ev => is_removal ev = false) (trace w')
    /\ Forall (fun p => files w' !! resolve p = files minified_world !! resolve p)
         (originals MINIFIED_DIR).
Proof.
  assert (Hin' :
    match @parseMinified picky_platform MINIFIED_DIR minified_world with
    | (_, w') => In (EvMinify (MinCode "worker")) (trace w')
    end).
  { assert (Hb :
      match @parseMinified picky_platform MINIFIED_DIR minified_world with
      | (_, w') =>
          existsb
            (fun ev =>
               match ev with
               | EvMinify (MinCode code) => String.eqb code "worker"
               | _ => false
               end) (trace w') = true
      end) by (vm_compute; reflexivity).
    destruct (@parseMinified picky_platform MINIFIED_DIR minified_world) as [r w'].
    apply existsb_exists in Hb as (ev & Hev & Htest).
    destruct ev as [| | | | | | |[code|]| |]; try discriminate Htest.
    apply String.eqb_eq in Htest as ->. exact Hev. }
  destruct (@parseMinified picky_platform MINIFIED_DIR minified_world)
    as [r w'] eqn:E.
  destruct (minified_before_any_removal (H := picky_platform) _ _ _ _ E)
    as (added & Ht & _ & HB).
  assert (Hthrow : @minify picky_platform (MinCode "worker")
                   = Throw (ToolError "terser" "parse error")) by reflexivity.
  assert (Hin : EvMinify (MinCode "worker") ∈ added).
  { apply list_elem_of_In in Hin'. rewrite Ht in Hin'.
    apply elem_of_app in Hin' as [Hin'|Hin']; [|exact Hin'].
    cbn [minified_world world_of trace] in Hin'.
    apply elem_of_nil in Hin'. destruct Hin'. }
  destruct (HB _ _ Hin Hthrow) as (Hr & Hno & Hfiles).
  exists r, w'. split; [reflexivity|]. split; [exact Hthrow|]. split; [exact Hr|].
  split; [|exact Hfiles]. rewrite Ht. cbn [minified_world world_of trace app]. exact Hno.
Defined.
